(** * InternetCp: the [search_web] tool of [server.py]

    A shallow embedding of the fallback-search-and-synthesize pipeline of
    [src/server.py] ([search_with_tavily], lines 18-40, and [search_web],
    lines 46-164), and the properties the specification states about it.

    Conventions.
    - A Python [str] is a Rocq [string]; one [ascii] stands for one code
      point (the model keeps code points below 256), so [String.length] is
      Python's [len] and [substring 0 n] is the slice [s[:n]].
    - A Python [dict] with string keys and string values is a
      [gmap string string]; [d.get(k, v)] is [default v (d !! k)].
    - A Python [int] is a [Z].
    - The three upstream services are an oracle [providers]; every call
      made on one is recorded in a trace of [event]s.
    - Building the OpenAI client (line 52) happens before the first search
      and outside every [try]: an [environment] says whether it returns or
      raises, and [ready P] is the environment in which it returns.  The
      clients of the two search providers are built inside the [try]
      blocks (lines 21 and 58), next to the search call whose exception
      the block catches; the model folds them into that call.
    - The lines written to [sys.stderr] are not modelled. *)

From Stdlib Require Import ZArith QArith Ascii DecimalString.
From stdpp Require Import gmap strings list.

Local Open Scope Z_scope.

(** ** Python strings *)

Module PyStr.

Definition nl : string := String (Ascii.ascii_of_nat 10) EmptyString.
Definition dquote : string := String (Ascii.ascii_of_nat 34) EmptyString.

(** [bool(s)] for a [str]. *)
Definition truthy (s : string) : bool :=
  match s with EmptyString => false | String _ _ => true end.

(** [len(s)] as a Python [int]. *)
Definition len (s : string) : Z := Z.of_nat (String.length s).

(** [s[:n]] for a literal [n >= 0]. *)
Definition slice_to (n : nat) (s : string) : string := String.substring 0 n s.

(** [str(i)] for a non-negative [int] held in a [nat]. *)
Definition of_nat (i : nat) : string :=
  NilEmpty.string_of_uint (Nat.to_uint i).

(** [c.isspace()]: the white space [str.strip()] removes, for code points
    below 256: TAB, LF, VT, FF, CR, FS, GS, RS, US, SPACE, NEL, NBSP. *)
Definition isspace (c : ascii) : bool :=
  let n := Ascii.nat_of_ascii c in
  ((9 <=? n) && (n <=? 13) || (28 <=? n) && (n <=? 32)
   || (n =? 133) || (n =? 160))%nat.

Fixpoint lstrip (s : string) : string :=
  match s with
  | EmptyString => EmptyString
  | String c s' => if isspace c then lstrip s' else s
  end.

Fixpoint rstrip (s : string) : string :=
  match s with
  | EmptyString => EmptyString
  | String c s' =>
      match rstrip s' with
      | EmptyString => if isspace c then EmptyString else String c EmptyString
      | r => String c r
      end
  end.

(** [s.strip()] *)
Definition strip (s : string) : string := rstrip (lstrip s).

(** Every character of [s] is white space. *)
Fixpoint all_space (s : string) : bool :=
  match s with
  | EmptyString => true
  | String c s' => isspace c && all_space s'
  end.

Definition first_char (s : string) : option ascii :=
  match s with EmptyString => None | String c _ => Some c end.

Fixpoint last_char (s : string) : option ascii :=
  match s with
  | EmptyString => None
  | String c EmptyString => Some c
  | String _ s' => last_char s'
  end.

End PyStr.

(** ** Python lists *)

Module PyList.

(** [bool(l)] *)
Definition truthy {A} (l : list A) : bool :=
  match l with [] => false | _ :: _ => true end.

(** [l[:n]] for any [int] [n]: a negative bound counts from the end, and
    both forms clamp to the list. *)
Definition slice_to {A} (n : Z) (l : list A) : list A :=
  if 0 <=? n then take (Z.to_nat n) l
  else take (Z.to_nat (Z.of_nat (length l) + n)) l.

(** [enumerate(l, start)] *)
Fixpoint enumerate {A} (start : nat) (l : list A) : list (nat * A) :=
  match l with
  | [] => []
  | x :: l' => (start, x) :: enumerate (S start) l'
  end.

End PyList.

(** ** Data model *)

(** A search record, and a provider-B hit: a dict from strings to strings. *)
Abbreviation pydict := (gmap string string).

(** Modelled from the spec: the hit objects of provider A's response, whose
    class lives in the [firecrawl] package.  The spec (section 6) gives them
    optional [title], [url], [markdown] and [content] attributes; [None]
    stands for an attribute that is missing or holds [None], which
    [getattr(result, name, None)] does not tell apart. *)
Record fc_hit : Type := FcHit {
  hit_title : option string;
  hit_url : option string;
  hit_markdown : option string;
  hit_content : option string
}.

(** The [data] attribute of provider A's response: a list of hits, or any
    other value, of which only the truth value is looked at. *)
Inductive fc_data : Type :=
| DataList (hits : list fc_hit)
| DataOther (truth : bool).

(** Provider A's response; [None] when it has no [data] attribute. *)
Definition fc_response : Type := option fc_data.

(** Modelled from the spec: provider B's response, a mapping (section 6)
    of which only the [results] entry is read; [None] when the key is
    absent, so that [search_result.get('results', [])] is
    [default [] response]. *)
Definition tv_response : Type := option (list pydict).

(** The request sent to the completion endpoint. *)
Record completion_request : Type := CompletionRequest {
  model : string;
  messages : list (string * string);   (* role, content *)
  max_tokens : Z;
  temperature : Q
}.

(** The completion endpoint's response: per choice, [message.content]
    ([None] when the field holds [None]). *)
Definition oa_response : Type := list (option string).

(** An exception: class name and message.  The model holds instances of
    [Exception], which is what [except Exception] catches; signals that
    derive from [BaseException] alone ([KeyboardInterrupt], [SystemExit])
    are not modelled. *)
Record exn : Type := Exn { exn_class : string; exn_msg : string }.

Inductive outcome (A : Type) : Type :=
| Returned (a : A)
| Raised (e : exn).
Arguments Returned {A} a.
Arguments Raised {A} e.

(** The calls an invocation makes on the three upstream services. *)
Inductive event : Type :=
| FirecrawlSearch (query : string)
| TavilySearch (query : string) (max_results : Z)
               (include_answer include_images : bool)
| ChatCompletion (req : completion_request).

(** What the upstream services answer during one invocation. *)
Record providers : Type := Providers {
  firecrawl_search : string -> outcome fc_response;
  tavily_search : string -> Z -> bool -> bool -> outcome tv_response;
  chat_completions_create : completion_request -> outcome oa_response
}.

(** The environment of one invocation: what building the OpenAI client at
    line 52 does (it returns the client, or raises, as it does when no API
    key is set), and the upstream services. *)
Record environment : Type := Environment {
  openai_client : outcome unit;
  services : providers
}.

(** The environment in which the OpenAI client is built. *)
Definition ready (P : providers) : environment :=
  {| openai_client := Returned tt; services := P |}.

(** ** The monad of the handler: a trace of calls, and exceptions *)

Definition M (A : Type) : Type := list event -> list event * outcome A.

Definition ret {A} (a : A) : M A := fun tr => (tr, Returned a).

Definition raise {A} (e : exn) : M A := fun tr => (tr, Raised e).

Definition bind {A B} (m : M A) (k : A -> M B) : M B :=
  fun tr =>
    match m tr with
    | (tr', Returned a) => k a tr'
    | (tr', Raised e) => (tr', Raised e)
    end.

(** [try: body except Exception as e: handler] *)
Definition try_except {A} (body : M A) (handler : exn -> M A) : M A :=
  fun tr =>
    match body tr with
    | (tr', Returned a) => (tr', Returned a)
    | (tr', Raised e) => handler e tr'
    end.

(** An upstream call: record it, then return or raise what the service
    answers. *)
Definition call {A} (ev : event) (answer : outcome A) : M A :=
  fun tr => (tr ++ [ev], answer).

Notation "'do' x <- m ; k" := (bind m (fun x => k))
  (at level 10, x name, m at level 100, k at level 200).
Notation "'do' ' pat <- m ; k" :=
  (bind m (fun x => match x with pat => k end))
  (at level 10, pat pattern, m at level 100, k at level 200).

(** Run a handler from the empty trace. *)
Definition run {A} (m : M A) : list event * outcome A := m [].
Definition trace_of {A} (m : M A) : list event := fst (run m).
Definition result_of {A} (m : M A) : outcome A := snd (run m).

(** ** [search_with_tavily] (lines 18-40) *)

(** The dict appended per hit, lines 31-35. *)
Definition tavily_record (result : pydict) : pydict :=
  {[ "title" := default "No title" (result !! "title");
     "url" := default "No URL" (result !! "url");
     "content" := default "No content" (result !! "content") ]}.

Definition tavily_client_search (P : providers) (query : string)
    (max_results : Z) (include_answer include_images : bool)
    : M tv_response :=
  call (TavilySearch query max_results include_answer include_images)
       (tavily_search P query max_results include_answer include_images).

Definition search_with_tavily (P : providers) (query : string)
    (max_results : Z) : M (list pydict) :=
  try_except
    (do search_result <-
       tavily_client_search P query max_results false false;
     let results :=
       fold_left (fun results result => results ++ [tavily_record result])
                 (default [] search_result) [] in
     ret results)
    (fun e => ret []).

(** ** [search_web] (lines 46-164) *)

(** [getattr(result, name, None) or fallback], lines 65-67. *)
Definition attr_or (attr : option string) (fallback : string) : string :=
  match attr with
  | Some s => if PyStr.truthy s then s else fallback
  | None => fallback
  end.

Definition extract_title (result : fc_hit) : string :=
  attr_or (hit_title result) "No title".
Definition extract_url (result : fc_hit) : string :=
  attr_or (hit_url result) "No URL".
Definition extract_content (result : fc_hit) : string :=
  attr_or (hit_markdown result) (attr_or (hit_content result) "No content").

(** The test of line 70 on the extracted fields. *)
Definition has_actual_content (title url content : string) : bool :=
  negb (String.eqb title "No title")
  || negb (String.eqb url "No URL")
  || (PyStr.truthy content && negb (String.eqb content "No content")
      && (10 <? PyStr.len content)).

(** One turn of the loop of lines 64-75. *)
Definition firecrawl_step (results : list pydict) (result : fc_hit)
    : list pydict :=
  let title := extract_title result in
  let url := extract_url result in
  let content := extract_content result in
  if has_actual_content title url content then
    results ++ [ {[ "title" := title; "url" := url; "content" := content ]} ]
  else results.

Definition firecrawl_app_search (P : providers) (query : string)
    : M fc_response :=
  call (FirecrawlSearch query) (firecrawl_search P query).

(** [bool(search_result.data)], line 61. *)
Definition data_truthy (d : fc_data) : bool :=
  match d with
  | DataList hits => PyList.truthy hits
  | DataOther truth => truth
  end.

(** Lines 59-79, the body of the [try]: from the response to the new values
    of [results] and [search_method_used].  Nothing after the call of line
    59 can raise. *)
Definition firecrawl_collect (search_result : fc_response)
    (results : list pydict) (search_method_used : string)
    : list pydict * string :=
  match search_result with
  | Some data =>
      if data_truthy data then
        match data with
        | DataList firecrawl_results =>
            if (0 <? Z.of_nat (length firecrawl_results)) then
              let results := fold_left firecrawl_step firecrawl_results results in
              if PyList.truthy results then (results, "FireCrawl")
              else (results, search_method_used)
            else (results, search_method_used)
        | DataOther _ => (results, search_method_used)
        end
      else (results, search_method_used)
  | None => (results, search_method_used)
  end.

(** Lines 53-81: the primary adapter. *)
Definition primary_adapter (P : providers) (query : string)
    : M (list pydict * string) :=
  let results : list pydict := [] in
  let search_method_used := "Unknown" in
  try_except
    (do search_result <- firecrawl_app_search P query;
     ret (firecrawl_collect search_result results search_method_used))
    (fun e => ret (results, search_method_used)).

(** Lines 84-89: the fallback, entered when [results] is empty. *)
Definition fallback_adapter (P : providers) (query : string)
    (max_results : Z) (results : list pydict) (search_method_used : string)
    : M (list pydict * string) :=
  if negb (PyList.truthy results) then
    do results <- search_with_tavily P query max_results;
    if PyList.truthy results then ret (results, "Tavily")
    else ret (results, search_method_used)
  else ret (results, search_method_used).

(** Lines 53-89: both adapters. *)
Definition search_stage (P : providers) (query : string) (max_results : Z)
    : M (list pydict * string) :=
  do '(results, search_method_used) <- primary_adapter P query;
  fallback_adapter P query max_results results search_method_used.

(** ["\n".join(lines)]: the lines of a triple-quoted literal. *)
Fixpoint join_lines (lines : list string) : string :=
  match lines with
  | [] => ""
  | [l] => l
  | l :: ls => l +:+ PyStr.nl +:+ join_lines ls
  end.

(** The message of lines 93-108: an f-string whose only field is the
    query, between double quotes on its first line. *)
Definition diagnostic (query : string) : string :=
  "I was unable to find search results for " +:+ PyStr.dquote +:+ query
  +:+ PyStr.dquote
  +:+ join_lines [
    " using available search providers (FireCrawl, Tavily). This could be due to:";
    "1. API limitations or issues";
    "2. The query being too specific or recent";
    "3. Network connectivity issues";
    "";
    "Please try:";
    "- Rephrasing your query";
    "- Checking your internet connection";
    "- Verifying your API keys are configured correctly";
    "- Trying again in a few minutes";
    "";
    "For ManCity match information specifically, I recommend checking:";
    "- Official Manchester City FC website";
    "- BBC Sport";
    "- ESPN";
    "- Sky Sports" ].

(** Lines 118-120. *)
Definition truncate_content (content : string) : string :=
  if 1500 <? PyStr.len content
  then PyStr.slice_to 1500 content +:+ "..."
  else content.

(** One turn of the loop of lines 113-124. *)
Definition context_step (context : string) (entry : nat * pydict) : string :=
  let '(i, result) := entry in
  let title := default "No title" (result !! "title") in
  let url := default "No URL" (result !! "url") in
  let content := default "No content" (result !! "content") in
  let content := truncate_content content in
  let context :=
    context +:+ ("[" +:+ PyStr.of_nat i +:+ "] Source: " +:+ url +:+ PyStr.nl) in
  let context := context +:+ (" Title: " +:+ title +:+ PyStr.nl) in
  context +:+ (" Content: " +:+ content +:+ PyStr.nl +:+ PyStr.nl).

(** Lines 111-124: the FormattedContext. *)
Definition format_context (search_method_used : string)
    (results : list pydict) (max_results : Z) : string :=
  let context :=
    "Search results (via " +:+ search_method_used +:+ "):" +:+ PyStr.nl in
  fold_left context_step
    (PyList.enumerate 1 (PyList.slice_to max_results results)) context.

(** One turn of the loop of lines 128-131. *)
Definition sources_step (sources : string) (entry : nat * pydict) : string :=
  let '(i, result) := entry in
  let title := default "No title" (result !! "title") in
  let url := default "No URL" (result !! "url") in
  sources +:+ ("[" +:+ PyStr.of_nat i +:+ "] " +:+ title +:+ " - " +:+ url
               +:+ PyStr.nl).

(** Lines 127-131: the blank-line separator and the CitationBlock. *)
Definition format_sources (search_method_used : string)
    (results : list pydict) (max_results : Z) : string :=
  let sources :=
    PyStr.nl +:+ PyStr.nl +:+ "Sources (via " +:+ search_method_used +:+ "):"
      +:+ PyStr.nl in
  fold_left sources_step
    (PyList.enumerate 1 (PyList.slice_to max_results results)) sources.

(** The prompt of lines 134-146. *)
Definition build_prompt (query context search_method_used : string)
    : string :=
  join_lines [
    "You are a helpful research assistant that provides accurate, concise, and well-sourced answers.";
    "Using the search results below, provide a comprehensive answer to the query: "
      +:+ PyStr.dquote +:+ query +:+ PyStr.dquote;
    "";
    context;
    "";
    "Instructions:";
    "1. Provide a clear, well-structured answer";
    "2. Cite sources using the numbered references above";
    "3. If the search results don't contain relevant information, state this clearly";
    "4. Keep the answer focused and avoid speculation";
    "5. Note that results were obtained via " +:+ search_method_used;
    "";
    "Answer:" ].

(** The request of lines 149-157. *)
Definition build_request (prompt : string) : completion_request :=
  {| model := "gpt-4o-mini";
     messages :=
       [ ("system",
          "You are a research assistant that provides accurate information based on search results.");
         ("user", prompt) ];
     max_tokens := 1000;
     temperature := (3 # 10)%Q |}.

Definition openai_chat_completions_create (P : providers)
    (req : completion_request) : M oa_response :=
  call (ChatCompletion req) (chat_completions_create P req).

(** [response.choices[0].message.content.strip()], line 160: indexing an
    empty list and calling a method on [None] raise. *)
Definition first_choice_stripped (response : oa_response) : M string :=
  match response with
  | [] => raise (Exn "IndexError" "list index out of range")
  | None :: _ =>
      raise (Exn "AttributeError"
                 "'NoneType' object has no attribute 'strip'")
  | Some content :: _ => ret (PyStr.strip content)
  end.

(** Lines 92-164: what [search_web] does with the outcome of the search. *)
Definition answer_stage (P : providers) (query : string) (max_results : Z)
    (results : list pydict) (search_method_used : string) : M string :=
  if negb (PyList.truthy results) then ret (diagnostic query)
  else
    let context := format_context search_method_used results max_results in
    let sources := format_sources search_method_used results max_results in
    let prompt := build_prompt query context search_method_used in
    do response <- openai_chat_completions_create P (build_request prompt);
    do answer <- first_choice_stripped response;
    let result := answer +:+ sources in
    ret result.

(** Line 52: [OpenAI(api_key=...)].  No upstream call is made; what it
    raises is raised by [search_web], no [try] being open. *)
Definition new_openai_client (E : environment) : M unit :=
  fun tr => (tr, openai_client E).

Definition search_web (E : environment) (query : string) (max_results : Z)
    : M string :=
  do client <- new_openai_client E;
  do '(results, search_method_used) <-
    search_stage (services E) query max_results;
  answer_stage (services E) query max_results results search_method_used.

(** The default of the parameter [max_results] (lines 18 and 46), and the
    handler as the host calls it when the argument is left out. *)
Definition default_max_results : Z := 5.

Definition search_web_default (E : environment) (query : string)
    : M string :=
  search_web E query default_max_results.

(** ** Observations on a run *)

Definition firecrawl_calls (tr : list event) : list string :=
  omap (fun ev => match ev with FirecrawlSearch q => Some q | _ => None end) tr.

Definition tavily_calls (tr : list event) : list (string * Z * bool * bool) :=
  omap (fun ev => match ev with
                  | TavilySearch q n a i => Some (q, n, a, i)
                  | _ => None
                  end) tr.

Definition completion_calls (tr : list event) : list completion_request :=
  omap (fun ev => match ev with ChatCompletion r => Some r | _ => None end) tr.

Definition returned_or {A} (d : A) (o : outcome A) : A :=
  match o with Returned a => a | Raised _ => d end.

(** What each adapter hands on ([primary_adapter] and [search_with_tavily]
    always return, see [primary_adapter_returns] and
    [search_with_tavily_returns]). *)
Definition primary_outcome (P : providers) (query : string)
    : list pydict * string :=
  returned_or ([], "Unknown") (result_of (primary_adapter P query)).

Definition primary_records (P : providers) (query : string) : list pydict :=
  fst (primary_outcome P query).

Definition fallback_records (P : providers) (query : string)
    (max_results : Z) : list pydict :=
  returned_or [] (result_of (search_with_tavily P query max_results)).

Definition search_outcome (P : providers) (query : string) (max_results : Z)
    : list pydict * string :=
  returned_or ([], "Unknown") (result_of (search_stage P query max_results)).

(** ** The vocabulary of the specification *)

(** The fields of a SearchRecord, read as the formatter reads them. *)
Definition rec_title (r : pydict) : string := default "No title" (r !! "title").
Definition rec_url (r : pydict) : string := default "No URL" (r !! "url").
Definition rec_content (r : pydict) : string :=
  default "No content" (r !! "content").

(** The record invariant of section 3: some field carries information. *)
Definition carries_information (r : pydict) : Prop :=
  rec_title r ≠ "No title" ∨ rec_url r ≠ "No URL"
  ∨ (10 < String.length (rec_content r))%nat.

(** A qualifying hit of provider A, in the words of the specification. *)
Definition qualifying_hit (h : fc_hit) : Prop :=
  extract_title h ≠ "No title" ∨ extract_url h ≠ "No URL"
  ∨ (extract_content h ≠ "No content"
     ∧ (10 < String.length (extract_content h))%nat).

Global Instance qualifying_hit_dec (h : fc_hit) : Decision (qualifying_hit h).
Proof. unfold qualifying_hit. apply _. Defined.

(** The SearchRecord made from a hit of provider A. *)
Definition record_of_hit (h : fc_hit) : pydict :=
  {[ "title" := extract_title h; "url" := extract_url h;
     "content" := extract_content h ]}.

(** The hits a response of provider A exposes. *)
Definition response_hits (r : fc_response) : list fc_hit :=
  match r with Some (DataList hits) => hits | _ => [] end.

(** Provider A raises, or returns no qualifying hit. *)
Definition primary_fails (P : providers) (query : string) : bool :=
  match firecrawl_search P query with
  | Raised _ => true
  | Returned r => bool_decide (filter qualifying_hit (response_hits r) = [])
  end.

Definition concat_str (l : list string) : string :=
  foldr String.append "" l.

(** [f] applied to each record with its position, counted from [start]. *)
Fixpoint numbered_from (f : nat -> pydict -> string) (start : nat)
    (l : list pydict) : list string :=
  match l with
  | [] => []
  | r :: l' => f start r :: numbered_from f (S start) l'
  end.

(** Positions counted from 1. *)
Definition numbered (f : nat -> pydict -> string) (l : list pydict)
    : list string :=
  numbered_from f 1 l.

Definition context_header (label : string) : string :=
  "Search results (via " +:+ label +:+ "):" +:+ PyStr.nl.

(** The Source/Title/Content lines of the record at position [i]. *)
Definition context_entry (i : nat) (r : pydict) : string :=
  "[" +:+ PyStr.of_nat i +:+ "] Source: " +:+ rec_url r +:+ PyStr.nl
  +:+ " Title: " +:+ rec_title r +:+ PyStr.nl
  +:+ " Content: " +:+ truncate_content (rec_content r) +:+ PyStr.nl
  +:+ PyStr.nl.

Definition blank_line : string := PyStr.nl +:+ PyStr.nl.

Definition sources_header (label : string) : string :=
  "Sources (via " +:+ label +:+ "):" +:+ PyStr.nl.

(** The citation line of the record at position [i]. *)
Definition citation_line (i : nat) (r : pydict) : string :=
  "[" +:+ PyStr.of_nat i +:+ "] " +:+ rec_title r +:+ " - " +:+ rec_url r
  +:+ PyStr.nl.

(** The FormattedContext and the CitationBlock over a list of records. *)
Definition context_block (label : string) (records : list pydict) : string :=
  context_header label +:+ concat_str (numbered context_entry records).

Definition citation_block (label : string) (records : list pydict) : string :=
  sources_header label +:+ concat_str (numbered citation_line records).

(** The request [search_web] sends for a given outcome of the search. *)
Definition request_for (query label : string) (results : list pydict)
    (max_results : Z) : completion_request :=
  build_request
    (build_prompt query (format_context label results max_results) label).

(** What lines 149-160 make of the completion endpoint's answer to [req]:
    the exception it raises, the exception of reading an empty or [None]
    answer, or the stripped text followed by [sources]. *)
Definition synthesized (P : providers) (req : completion_request)
    (sources : string) : outcome string :=
  match chat_completions_create P req with
  | Raised e => Raised e
  | Returned response =>
      match result_of (first_choice_stripped response) with
      | Returned answer => Returned (answer +:+ sources)
      | Raised e => Raised e
      end
  end.

(** Provider A answering with an empty hit list instead of what it does. *)
Definition silence_firecrawl (P : providers) : providers :=
  {| firecrawl_search := fun _ => Returned (Some (DataList []));
     tavily_search := tavily_search P;
     chat_completions_create := chat_completions_create P |}.

(** Provider B answering with an empty [results] list. *)
Definition silence_tavily (P : providers) : providers :=
  {| firecrawl_search := firecrawl_search P;
     tavily_search := fun _ _ _ _ => Returned (Some []);
     chat_completions_create := chat_completions_create P |}.

(** ** Sample invocations *)

Module Samples.

Definition boom : exn := Exn "ConnectionError" "upstream unreachable".

Definition paris_hit : fc_hit :=
  FcHit (Some "Paris") (Some "https://x") None
        (Some "Paris is the capital...").

Definition lyon_hit : fc_hit :=
  FcHit (Some "Lyon") (Some "https://y") (Some "# Lyon") None.

(** A hit with nothing in it: every field falls back to its default. *)
Definition blank_hit : fc_hit := FcHit None None None (Some "").

Definition replies (text : string)
    : completion_request -> outcome oa_response :=
  fun _ => Returned [Some text].

(** Scenario 1: provider A returns one hit. *)
Definition paris : providers :=
  {| firecrawl_search := fun _ => Returned (Some (DataList [paris_hit]));
     tavily_search := fun _ _ _ _ => Raised boom;
     chat_completions_create := replies "  Paris.  " |}.

(** Provider A returns a blank hit between two qualifying ones. *)
Definition two_cities : providers :=
  {| firecrawl_search :=
       fun _ => Returned (Some (DataList [paris_hit; blank_hit; lyon_hit]));
     tavily_search := fun _ _ _ _ => Raised boom;
     chat_completions_create := replies "Two cities." |}.

(** Scenario 3: both providers return nothing. *)
Definition silent : providers :=
  {| firecrawl_search := fun _ => Returned None;
     tavily_search := fun _ _ _ _ => Returned None;
     chat_completions_create := replies "unused" |}.

(** Both providers raise. *)
Definition unreachable : providers :=
  {| firecrawl_search := fun _ => Raised boom;
     tavily_search := fun _ _ _ _ => Raised boom;
     chat_completions_create := replies "unused" |}.

(** Provider A raises, provider B returns one hit without any key. *)
Definition tavily_blank : providers :=
  {| firecrawl_search := fun _ => Raised boom;
     tavily_search := fun _ _ _ _ => Returned (Some [∅]);
     chat_completions_create := replies "Nothing." |}.

(** Scenario 2: provider A raises, provider B returns two results. *)
Definition tavily_two : providers :=
  {| firecrawl_search := fun _ => Raised boom;
     tavily_search :=
       fun _ _ _ _ =>
         Returned (Some [ {[ "title" := "A"; "url" := "https://a";
                             "content" := "first" ]};
                          {[ "title" := "B"; "url" := "https://b";
                             "content" := "second" ]} ]);
     chat_completions_create := replies " Both. " |}.

(** The search succeeds and the completion endpoint raises. *)
Definition synthesis_down : providers :=
  {| firecrawl_search := fun _ => Returned (Some (DataList [paris_hit]));
     tavily_search := fun _ _ _ _ => Raised boom;
     chat_completions_create := fun _ => Raised boom |}.

Fixpoint repeat_char (c : ascii) (n : nat) : string :=
  match n with
  | O => ""
  | S n' => String c (repeat_char c n')
  end.

(** Scenario 4: a content of exactly 1501 characters. *)
Definition long_content : string := repeat_char "a" 1501.

(** The search would succeed, but no OpenAI key is set: building the
    client raises. *)
Definition key_error : exn :=
  Exn "OpenAIError" "The api_key client option must be set".

Definition missing_key : environment :=
  {| openai_client := Raised key_error; services := paris |}.

Definition three_records : list pydict :=
  [ {[ "title" := "A"; "url" := "https://a"; "content" := "first" ]};
    {[ "title" := "B"; "url" := "https://b"; "content" := "second" ]};
    {[ "title" := "C"; "url" := "https://c"; "content" := "third" ]} ].

(** The search succeeds and the completion endpoint answers with no
    choice at all. *)
Definition no_choices : providers :=
  {| firecrawl_search := fun _ => Returned (Some (DataList [paris_hit]));
     tavily_search := fun _ _ _ _ => Raised boom;
     chat_completions_create := fun _ => Returned [] |}.

(** The search succeeds and the completion endpoint answers with white
    space only. *)
Definition blank_reply : providers :=
  {| firecrawl_search := fun _ => Returned (Some (DataList [paris_hit]));
     tavily_search := fun _ _ _ _ => Raised boom;
     chat_completions_create := replies "   " |}.

(** A hit whose only information is a markdown of more than 10
    characters, with a [content] attribute that is passed over. *)
Definition markdown_hit : fc_hit :=
  FcHit None (Some "") (Some "# A heading") (Some "ignored").

(** Provider B returns a hit with an empty title and a key the adapter
    does not read. *)
Definition tavily_sparse : providers :=
  {| firecrawl_search := fun _ => Returned (Some (DataOther true));
     tavily_search :=
       fun _ _ _ _ =>
         Returned (Some [ {[ "title" := ""; "score" := "0.9" ]} ]);
     chat_completions_create := replies "Sparse." |}.

End Samples.

(** ** Strings *)

Module PyStrFacts.
Import PyStr.

Lemma app_nil_l (s : string) : "" +:+ s = s.
Proof. reflexivity. Qed.

Lemma app_cons (c : ascii) (s t : string) :
  String c s +:+ t = String c (s +:+ t).
Proof. reflexivity. Qed.

Lemma app_nil_r (s : string) : s +:+ "" = s.
Proof.
  induction s as [|c s IH]; [done |]. by rewrite app_cons, IH.
Qed.

Lemma app_assoc (a b c : string) : (a +:+ b) +:+ c = a +:+ (b +:+ c).
Proof.
  induction a as [|x a IH]; [done |]. by rewrite !app_cons, IH.
Qed.

Lemma length_app (a b : string) :
  String.length (a +:+ b) = (String.length a + String.length b)%nat.
Proof.
  induction a as [|x a IH]; [done |]. rewrite app_cons. cbn. by rewrite IH.
Qed.

Lemma length_slice_to (n : nat) (s : string) :
  String.length (slice_to n s) = Nat.min n (String.length s).
Proof.
  unfold slice_to. revert s.
  induction n as [|n IH]; intros [|c s]; cbn; try done.
  by rewrite IH.
Qed.

(** A slice is a prefix: the string splits into the slice and a rest. *)
Lemma slice_to_prefix (n : nat) (s : string) :
  ∃ rest, s = slice_to n s +:+ rest.
Proof.
  unfold slice_to. revert s.
  induction n as [|n IH]; intros [|c s]; cbn.
  - by exists "".
  - by exists (String c s).
  - by exists "".
  - destruct (IH s) as [rest Hrest]. exists rest.
    by rewrite app_cons, <- Hrest.
Qed.

End PyStrFacts.

(** ** The Result Formatter *)

Section Formatter.
Import PyStr PyStrFacts.

Lemma truncate_short (content : string) :
  (String.length content ≤ 1500)%nat → truncate_content content = content.
Proof.
  intros HL. unfold truncate_content, len.
  destruct (Z.ltb_spec 1500 (Z.of_nat (String.length content))); [lia | done].
Qed.

Lemma truncate_long (content : string) :
  (1500 < String.length content)%nat →
  truncate_content content = slice_to 1500 content +:+ "...".
Proof.
  intros HL. unfold truncate_content, len.
  destruct (Z.ltb_spec 1500 (Z.of_nat (String.length content))); [done | lia].
Qed.

Lemma length_truncate_long (content : string) :
  (1500 < String.length content)%nat →
  String.length (truncate_content content) = 1503%nat.
Proof.
  intros HL. rewrite truncate_long by done.
  rewrite length_app, length_slice_to, Nat.min_l by lia.
  change (String.length "...") with 3%nat. lia.
Qed.

Lemma context_step_entry (context : string) (i : nat) (r : pydict) :
  context_step context (i, r) = context +:+ context_entry i r.
Proof.
  unfold context_step, context_entry, rec_url, rec_title, rec_content.
  by rewrite !app_assoc.
Qed.

Lemma sources_step_line (sources : string) (i : nat) (r : pydict) :
  sources_step sources (i, r) = sources +:+ citation_line i r.
Proof. reflexivity. Qed.

Lemma fold_context_steps (l : list pydict) (start : nat) (context : string) :
  fold_left context_step (PyList.enumerate start l) context
  = context +:+ concat_str (numbered_from context_entry start l).
Proof.
  revert start context.
  induction l as [|r l IH]; intros start context.
  - cbn. by rewrite app_nil_r.
  - cbn [PyList.enumerate fold_left numbered_from concat_str foldr].
    rewrite IH, context_step_entry. apply app_assoc.
Qed.

Lemma fold_sources_steps (l : list pydict) (start : nat) (sources : string) :
  fold_left sources_step (PyList.enumerate start l) sources
  = sources +:+ concat_str (numbered_from citation_line start l).
Proof.
  revert start sources.
  induction l as [|r l IH]; intros start sources.
  - cbn. by rewrite app_nil_r.
  - cbn [PyList.enumerate fold_left numbered_from concat_str foldr].
    rewrite IH, sources_step_line. apply app_assoc.
Qed.

(** The loops of lines 111-124 and 127-131 in closed form. *)
Lemma format_context_block (label : string) (results : list pydict)
    (max_results : Z) :
  format_context label results max_results
  = context_block label (PyList.slice_to max_results results).
Proof. unfold format_context. by rewrite fold_context_steps. Qed.

Lemma format_sources_block (label : string) (results : list pydict)
    (max_results : Z) :
  format_sources label results max_results
  = blank_line +:+ citation_block label (PyList.slice_to max_results results).
Proof.
  unfold format_sources. rewrite fold_sources_steps.
  unfold citation_block, sources_header, blank_line.
  by rewrite !app_assoc.
Qed.

Lemma numbered_from_lookup (f : nat → pydict → string) (l : list pydict)
    (start k : nat) :
  numbered_from f start l !! k = f (start + k)%nat <$> l !! k.
Proof.
  revert start k. induction l as [|r l IH]; intros start [|k]; cbn; try done.
  - by rewrite Nat.add_0_r.
  - rewrite IH. by replace (S start + k)%nat with (start + S k)%nat by lia.
Qed.

Lemma length_numbered_from (f : nat → pydict → string) (l : list pydict)
    (start : nat) :
  length (numbered_from f start l) = length l.
Proof.
  revert start. induction l as [|r l IH]; intros start; cbn; [done |].
  by rewrite IH.
Qed.

Lemma slice_to_nonneg {A} (n : Z) (l : list A) :
  0 ≤ n → PyList.slice_to n l = take (Z.to_nat n) l.
Proof.
  intros Hn. unfold PyList.slice_to.
  destruct (Z.leb_spec 0 n); [done | lia].
Qed.

Lemma slice_to_negative {A} (n : Z) (l : list A) :
  n < 0 → PyList.slice_to n l = take (length l - Z.to_nat (- n)) l.
Proof.
  intros Hn. unfold PyList.slice_to.
  destruct (Z.leb_spec 0 n); [lia |]. f_equal. lia.
Qed.

End Formatter.

(** C2. The formatter leaves a content string of at most 1500 characters
    as it is; a longer one becomes its first 1500 characters followed by
    three dots, so that 1501 characters of input give 1503 of output. *)
Theorem truncate_content_spec (content : string) :
  let L := String.length content in
  ((L ≤ 1500)%nat → truncate_content content = content)
  ∧ ((1500 < L)%nat →
     ∃ head rest,
       content = head +:+ rest ∧ String.length head = 1500%nat
       ∧ head = PyStr.slice_to 1500 content
       ∧ truncate_content content = head +:+ "...")
  ∧ (L = 1501%nat → String.length (truncate_content content) = 1503%nat)
  ∧ (∀ context i r,
       rec_content r = content →
       context_step context (i, r)
       = context
         +:+ "[" +:+ PyStr.of_nat i +:+ "] Source: " +:+ rec_url r +:+ PyStr.nl
         +:+ " Title: " +:+ rec_title r +:+ PyStr.nl
         +:+ " Content: " +:+ truncate_content content +:+ PyStr.nl
         +:+ PyStr.nl).
Proof.
  cbv zeta. split; [apply truncate_short |]. split; [| split].
  - intros HL.
    destruct (PyStrFacts.slice_to_prefix 1500 content) as [rest Hrest].
    exists (PyStr.slice_to 1500 content), rest.
    split; [done |]. split.
    + rewrite PyStrFacts.length_slice_to. lia.
    + split; [done | by apply truncate_long].
  - intros HL. apply length_truncate_long. lia.
  - intros context i r <-. apply context_step_entry.
Qed.

Lemma truncate_content_spec_witness :
  String.length Samples.long_content = 1501%nat
  ∧ String.length (truncate_content Samples.long_content) = 1503%nat.
Proof.
  assert (HL : String.length Samples.long_content = 1501%nat)
    by (vm_compute; reflexivity).
  split; [exact HL |].
  exact (proj1 (proj2 (proj2 (truncate_content_spec Samples.long_content)))
           HL).
Defined.

(** C3. With [1 <= max_results < M] the formatter includes exactly the
    first [max_results] of the [M] records, in their order and numbered
    from 1, in the FormattedContext and in the CitationBlock alike; what
    lies beyond has no influence on either block. *)
Theorem formatter_includes_first_max_results (label : string)
    (results : list pydict) (max_results : Z) :
  1 ≤ max_results →
  max_results < Z.of_nat (length results) →
  let included := take (Z.to_nat max_results) results in
  Z.of_nat (length included) = max_results
  ∧ format_context label results max_results = context_block label included
  ∧ format_sources label results max_results
    = blank_line +:+ citation_block label included
  ∧ length (numbered context_entry included) = Z.to_nat max_results
  ∧ length (numbered citation_line included) = Z.to_nat max_results
  ∧ (∀ k r, included !! k = Some r →
       results !! k = Some r
       ∧ numbered context_entry included !! k = Some (context_entry (S k) r)
       ∧ numbered citation_line included !! k = Some (citation_line (S k) r))
  ∧ (∀ beyond,
       format_context label (included ++ beyond) max_results
       = format_context label results max_results
       ∧ format_sources label (included ++ beyond) max_results
         = format_sources label results max_results).
Proof.
  intros Hpos Hlt included.
  assert (Hlen : length included = Z.to_nat max_results).
  { unfold included. rewrite length_take. lia. }
  split; [lia |].
  split; [by rewrite format_context_block, slice_to_nonneg by lia |].
  split; [by rewrite format_sources_block, slice_to_nonneg by lia |].
  unfold numbered. rewrite !length_numbered_from.
  split; [done |]. split; [done |]. split.
  - intros k r Hk. rewrite !numbered_from_lookup, Hk. split; [| done].
    unfold included in Hk. apply lookup_take_Some in Hk. tauto.
  - intros beyond.
    rewrite !format_context_block, !format_sources_block.
    rewrite !slice_to_nonneg by lia.
    rewrite take_app_length' by done. done.
Qed.

Lemma formatter_includes_first_max_results_witness :
  format_context "Tavily" Samples.three_records 2
  = context_block "Tavily" (take 2 Samples.three_records)
  ∧ format_sources "Tavily" Samples.three_records 2
    = blank_line +:+ citation_block "Tavily" (take 2 Samples.three_records).
Proof.
  pose proof (formatter_includes_first_max_results "Tavily"
                Samples.three_records 2 ltac:(lia) ltac:(cbn; lia)) as H.
  cbv zeta in H. split; [exact (proj1 (proj2 H)) |].
  exact (proj1 (proj2 (proj2 H))).
Defined.

(** ** The adapters *)

Section Adapters.
Import PyStr.

Lemma attr_or_truthy (attr : option string) (fallback : string) :
  truthy fallback = true → truthy (attr_or attr fallback) = true.
Proof.
  intros Hf. unfold attr_or. destruct attr as [s|]; [| done].
  by destruct (truthy s) eqn:Hs.
Qed.

Lemma extract_content_truthy (h : fc_hit) :
  truthy (extract_content h) = true.
Proof. unfold extract_content. by do 2 apply attr_or_truthy. Qed.

(** The test of line 70 decides [qualifying_hit]. *)
Lemma has_actual_content_qualifying (h : fc_hit) :
  has_actual_content (extract_title h) (extract_url h) (extract_content h)
  = bool_decide (qualifying_hit h).
Proof.
  unfold has_actual_content, qualifying_hit, len.
  rewrite extract_content_truthy.
  destruct (String.eqb_spec (extract_title h) "No title") as [Ht|Ht];
    destruct (String.eqb_spec (extract_url h) "No URL") as [Hu|Hu];
    destruct (String.eqb_spec (extract_content h) "No content") as [Hc|Hc];
    destruct (Z.ltb_spec 10 (Z.of_nat (String.length (extract_content h))));
    cbn; symmetry;
    first [ apply bool_decide_eq_true; intuition lia
          | apply bool_decide_eq_false; intuition lia ].
Qed.

Lemma firecrawl_step_filter (results : list pydict) (h : fc_hit) :
  firecrawl_step results h
  = results ++ (record_of_hit <$> filter qualifying_hit [h]).
Proof.
  unfold firecrawl_step. rewrite has_actual_content_qualifying.
  rewrite filter_cons, filter_nil.
  destruct (decide (qualifying_hit h)) as [Hq|Hq].
  - by rewrite bool_decide_eq_true_2.
  - rewrite bool_decide_eq_false_2 by done. by rewrite app_nil_r.
Qed.

(** The loop of lines 64-75 keeps the qualifying hits, in order. *)
Lemma fold_firecrawl_steps (hits : list fc_hit) (results : list pydict) :
  fold_left firecrawl_step hits results
  = results ++ (record_of_hit <$> filter qualifying_hit hits).
Proof.
  revert results. induction hits as [|h hits IH]; intros results.
  - cbn. by rewrite app_nil_r.
  - cbn [fold_left]. rewrite IH, firecrawl_step_filter.
    rewrite <- app_assoc, <- fmap_app. do 2 f_equal.
    by rewrite <- filter_app.
Qed.

Lemma firecrawl_collect_spec (r : fc_response) :
  firecrawl_collect r [] "Unknown"
  = let records := record_of_hit <$> filter qualifying_hit (response_hits r) in
    (records, if PyList.truthy records then "FireCrawl" else "Unknown").
Proof.
  destruct r as [[hits|truth]|]; cbn -[filter]; try done.
  - destruct hits as [|h hits]; [done |].
    cbn [data_truthy PyList.truthy length].
    replace (0 <? Z.of_nat (S (length hits))) with true
      by (symmetry; apply Z.ltb_lt; lia).
    rewrite fold_firecrawl_steps. cbn [app].
    by destruct (record_of_hit <$> filter qualifying_hit (h :: hits)).
  - by destruct truth.
Qed.

Lemma primary_adapter_run (P : providers) (query : string)
    (tr : list event) :
  primary_adapter P query tr
  = (tr ++ [FirecrawlSearch query],
     Returned
       match firecrawl_search P query with
       | Returned r => firecrawl_collect r [] "Unknown"
       | Raised _ => ([], "Unknown")
       end).
Proof.
  unfold primary_adapter, try_except, bind, firecrawl_app_search, call, ret.
  by destruct (firecrawl_search P query).
Qed.

Lemma fold_tavily_records (hits results : list pydict) :
  fold_left (fun results result => results ++ [tavily_record result])
            hits results
  = results ++ (tavily_record <$> hits).
Proof.
  revert results. induction hits as [|h hits IH]; intros results.
  - cbn. by rewrite app_nil_r.
  - cbn [fold_left]. rewrite IH, <- app_assoc. done.
Qed.

Lemma search_with_tavily_run (P : providers) (query : string)
    (max_results : Z) (tr : list event) :
  search_with_tavily P query max_results tr
  = (tr ++ [TavilySearch query max_results false false],
     Returned
       match tavily_search P query max_results false false with
       | Returned r => tavily_record <$> default [] r
       | Raised _ => []
       end).
Proof.
  unfold search_with_tavily, try_except, bind, tavily_client_search, call,
    ret.
  destruct (tavily_search P query max_results false false); [| done].
  by rewrite fold_tavily_records.
Qed.

(** Neither adapter raises. *)
Lemma primary_adapter_returns (P : providers) (query : string) :
  result_of (primary_adapter P query) = Returned (primary_outcome P query).
Proof.
  unfold primary_outcome, result_of, run. by rewrite primary_adapter_run.
Qed.

Lemma search_with_tavily_returns (P : providers) (query : string)
    (max_results : Z) :
  result_of (search_with_tavily P query max_results)
  = Returned (fallback_records P query max_results).
Proof.
  unfold fallback_records, result_of, run.
  by rewrite search_with_tavily_run.
Qed.

Lemma primary_outcome_spec (P : providers) (query : string) :
  primary_outcome P query
  = match firecrawl_search P query with
    | Returned r =>
        let records :=
          record_of_hit <$> filter qualifying_hit (response_hits r) in
        (records, if PyList.truthy records then "FireCrawl" else "Unknown")
    | Raised _ => ([], "Unknown")
    end.
Proof.
  unfold primary_outcome, result_of, run. rewrite primary_adapter_run.
  cbn [snd returned_or].
  destruct (firecrawl_search P query); [| done].
  apply firecrawl_collect_spec.
Qed.

Lemma truthy_nil_iff {A} (l : list A) : PyList.truthy l = false ↔ l = [].
Proof. by destruct l. Qed.

Lemma primary_label (P : providers) (query : string) :
  snd (primary_outcome P query)
  = if PyList.truthy (primary_records P query) then "FireCrawl"
    else "Unknown".
Proof.
  unfold primary_records. rewrite primary_outcome_spec.
  by destruct (firecrawl_search P query).
Qed.

Lemma primary_fails_iff (P : providers) (query : string) :
  primary_fails P query = true ↔ primary_records P query = [].
Proof.
  unfold primary_fails, primary_records. rewrite primary_outcome_spec.
  destruct (firecrawl_search P query) as [r|e]; [| done].
  cbn [fst]. rewrite bool_decide_eq_true.
  split; [by intros -> | apply fmap_nil_inv].
Qed.

(** Lines 53-89 in one step: the calls made and the outcome handed on. *)
Lemma search_stage_run (P : providers) (query : string) (max_results : Z) :
  run (search_stage P query max_results)
  = if PyList.truthy (primary_records P query) then
      ([FirecrawlSearch query],
       Returned (primary_records P query, "FireCrawl"))
    else
      ([FirecrawlSearch query;
        TavilySearch query max_results false false],
       Returned (fallback_records P query max_results,
                 if PyList.truthy (fallback_records P query max_results)
                 then "Tavily" else "Unknown")).
Proof.
  pose proof (primary_adapter_returns P query) as Hp.
  pose proof (primary_label P query) as Hl.
  unfold primary_records in *.
  unfold run, search_stage, bind. rewrite primary_adapter_run.
  unfold result_of, run in Hp. rewrite primary_adapter_run in Hp.
  cbn [snd] in Hp. injection Hp as Hp. rewrite Hp.
  destruct (primary_outcome P query) as [records label].
  cbn [fst snd] in *. unfold fallback_adapter.
  destruct (PyList.truthy records) eqn:Ht; cbn [negb].
  - by subst label.
  - unfold bind. rewrite search_with_tavily_run.
    pose proof (search_with_tavily_returns P query max_results) as Hf.
    unfold result_of, run in Hf. rewrite search_with_tavily_run in Hf.
    cbn [snd] in Hf. injection Hf as Hf. rewrite Hf. subst label.
    by destruct (PyList.truthy (fallback_records P query max_results)).
Qed.

Lemma search_stage_returns (P : providers) (query : string)
    (max_results : Z) :
  result_of (search_stage P query max_results)
  = Returned (search_outcome P query max_results).
Proof.
  unfold search_outcome, result_of. rewrite search_stage_run.
  by destruct (PyList.truthy (primary_records P query)).
Qed.

Lemma search_stage_split (P : providers) (query : string)
    (max_results : Z) :
  run (search_stage P query max_results)
  = (trace_of (search_stage P query max_results),
     Returned (search_outcome P query max_results)).
Proof.
  pose proof (search_stage_returns P query max_results) as H.
  unfold result_of, trace_of in *.
  destruct (run (search_stage P query max_results)) as [tr o].
  cbn [fst snd] in *. by subst o.
Qed.

End Adapters.

(** ** The whole handler *)

Section Handler.

Lemma first_choice_run (response : oa_response) (tr : list event) :
  first_choice_stripped response tr
  = (tr, result_of (first_choice_stripped response)).
Proof. by destruct response as [|[content|] rest]. Qed.

Lemma answer_stage_run (P : providers) (query : string) (max_results : Z)
    (results : list pydict) (label : string) (tr : list event) :
  answer_stage P query max_results results label tr
  = if PyList.truthy results then
      (tr ++ [ChatCompletion (request_for query label results max_results)],
       synthesized P (request_for query label results max_results)
                   (format_sources label results max_results))
    else (tr, Returned (diagnostic query)).
Proof.
  unfold answer_stage. destruct (PyList.truthy results); [| done].
  cbn [negb]. unfold bind, openai_chat_completions_create, call, synthesized.
  fold (request_for query label results max_results).
  destruct (chat_completions_create P _) as [response|e]; [| done].
  rewrite first_choice_run.
  by destruct (result_of (first_choice_stripped response)).
Qed.

(** Lines 46-164 in one step, for an invocation whose OpenAI client is
    built ([ready P]); [search_web_client_fails] below covers the others,
    and [search_web_client_built] shows that these are all. *)
Lemma search_web_run (P : providers) (query : string) (max_results : Z) :
  run (search_web (ready P) query max_results)
  = let results := fst (search_outcome P query max_results) in
    let label := snd (search_outcome P query max_results) in
    let tr := trace_of (search_stage P query max_results) in
    if PyList.truthy results then
      (tr ++ [ChatCompletion (request_for query label results max_results)],
       synthesized P (request_for query label results max_results)
                   (format_sources label results max_results))
    else (tr, Returned (diagnostic query)).
Proof.
  pose proof (search_stage_split P query max_results) as Hs.
  unfold run in *. unfold search_web, bind, new_openai_client, ready.
  cbn [openai_client services]. rewrite Hs.
  destruct (search_outcome P query max_results) as [results label].
  apply answer_stage_run.
Qed.

(** Line 52 raising: no upstream call, and the exception leaves
    [search_web]. *)
Lemma search_web_client_fails (E : environment) (query : string)
    (max_results : Z) (e : exn) :
  openai_client E = Raised e →
  run (search_web E query max_results) = ([], Raised e).
Proof.
  intros He. unfold run, search_web, bind, new_openai_client.
  by rewrite He.
Qed.

Lemma search_web_client_built (E : environment) (query : string)
    (max_results : Z) :
  openai_client E = Returned tt →
  search_web E query max_results
  = search_web (ready (services E)) query max_results.
Proof. destruct E as [client P]. cbn. by intros ->. Qed.

Lemma environment_cases (E : environment) :
  (∃ e, openai_client E = Raised e) ∨ openai_client E = Returned tt.
Proof. destruct (openai_client E) as [[]|e]; eauto. Qed.

(** What the search hands on, from the records of the two adapters. *)
Lemma search_outcome_spec (P : providers) (query : string)
    (max_results : Z) :
  search_outcome P query max_results
  = if PyList.truthy (primary_records P query) then
      (primary_records P query, "FireCrawl")
    else
      (fallback_records P query max_results,
       if PyList.truthy (fallback_records P query max_results)
       then "Tavily" else "Unknown").
Proof.
  unfold search_outcome, result_of. rewrite search_stage_run.
  by destruct (PyList.truthy (primary_records P query)).
Qed.

Lemma search_trace_spec (P : providers) (query : string)
    (max_results : Z) :
  trace_of (search_stage P query max_results)
  = if PyList.truthy (primary_records P query) then [FirecrawlSearch query]
    else [FirecrawlSearch query;
          TavilySearch query max_results false false].
Proof.
  unfold trace_of. rewrite search_stage_run.
  by destruct (PyList.truthy (primary_records P query)).
Qed.

Lemma truthy_true_iff {A} (l : list A) : PyList.truthy l = true ↔ l ≠ [].
Proof. by destruct l. Qed.

Lemma search_web_trace (P : providers) (query : string) (max_results : Z) :
  trace_of (search_web (ready P) query max_results)
  = trace_of (search_stage P query max_results)
    ++ (let results := fst (search_outcome P query max_results) in
        let label := snd (search_outcome P query max_results) in
        if PyList.truthy results
        then [ChatCompletion (request_for query label results max_results)]
        else []).
Proof.
  unfold trace_of at 1. rewrite search_web_run. cbv zeta.
  destruct (PyList.truthy _); [done |]. by rewrite app_nil_r.
Qed.

Lemma search_web_result (P : providers) (query : string) (max_results : Z) :
  result_of (search_web (ready P) query max_results)
  = let results := fst (search_outcome P query max_results) in
    let label := snd (search_outcome P query max_results) in
    if PyList.truthy results then
      synthesized P (request_for query label results max_results)
                  (format_sources label results max_results)
    else Returned (diagnostic query).
Proof.
  unfold result_of. rewrite search_web_run. cbv zeta.
  by destruct (PyList.truthy _).
Qed.

End Handler.

(** C1 (amended). When both adapters yield zero records, [search_web]
    returns the diagnostic message of lines 93-108, a fixed template with
    the query quoted inside it, and makes no call on the completion
    endpoint: its only calls are the two searches. *)
Theorem empty_search_returns_diagnostic (P : providers) (query : string)
    (max_results : Z) :
  primary_records P query = [] →
  fallback_records P query max_results = [] →
  result_of (search_web (ready P) query max_results) = Returned (diagnostic query)
  ∧ completion_calls (trace_of (search_web (ready P) query max_results)) = []
  ∧ trace_of (search_web (ready P) query max_results)
    = [FirecrawlSearch query; TavilySearch query max_results false false].
Proof.
  intros Hp Hf. unfold result_of, trace_of. rewrite search_web_run.
  rewrite search_outcome_spec, search_trace_spec, Hp, Hf. by cbn.
Qed.

(** C1, as stated, fails: two invocations in which both adapters yield
    zero records return different strings, since the message quotes the
    query. *)
Lemma diagnostic_differs_between_queries :
  primary_records Samples.silent "a" = []
  ∧ fallback_records Samples.silent "a" 5 = []
  ∧ primary_records Samples.silent "b" = []
  ∧ fallback_records Samples.silent "b" 5 = []
  ∧ result_of (search_web (ready Samples.silent) "a" 5)
    ≠ result_of (search_web (ready Samples.silent) "b" 5).
Proof.
  repeat split; try reflexivity.
  vm_compute. discriminate.
Qed.

Lemma empty_search_returns_diagnostic_witness :
  result_of (search_web (ready Samples.unreachable) "capital of France" 5)
  = Returned (diagnostic "capital of France")
  ∧ completion_calls
      (trace_of (search_web (ready Samples.unreachable) "capital of France" 5)) = []
  ∧ trace_of (search_web (ready Samples.unreachable) "capital of France" 5)
    = [FirecrawlSearch "capital of France";
       TavilySearch "capital of France" 5 false false].
Proof.
  apply (empty_search_returns_diagnostic Samples.unreachable
           "capital of France" 5); reflexivity.
Defined.

(** C4. Provider A is called once, with the query alone.  Provider B is
    called exactly once, with the original query and [max_results] (answer
    and images off), when provider A raises or returns no qualifying hit,
    and not at all otherwise. *)
Theorem fallback_called_iff_primary_fails (P : providers) (query : string)
    (max_results : Z) :
  firecrawl_calls (trace_of (search_web (ready P) query max_results)) = [query]
  ∧ tavily_calls (trace_of (search_web (ready P) query max_results))
    = if primary_fails P query then [(query, max_results, false, false)]
      else [].
Proof.
  pose proof (primary_fails_iff P query) as Hfail.
  rewrite search_web_trace, search_trace_spec. cbv zeta.
  unfold firecrawl_calls, tavily_calls. rewrite !omap_app.
  destruct (PyList.truthy (fst (search_outcome P query max_results)));
    cbn [omap]; rewrite !app_nil_r.
  all: destruct (primary_fails P query);
    [ by rewrite (proj1 Hfail eq_refl)
    | destruct (PyList.truthy (primary_records P query)) eqn:Ht; [done |];
      apply truthy_nil_iff in Ht; apply Hfail in Ht; done ].
Qed.

Section Records.

Lemma rec_title_dict (t u c : string) :
  rec_title {[ "title" := t; "url" := u; "content" := c ]} = t.
Proof. unfold rec_title. by rewrite lookup_insert_eq. Qed.

Lemma rec_url_dict (t u c : string) :
  rec_url {[ "title" := t; "url" := u; "content" := c ]} = u.
Proof.
  unfold rec_url.
  by rewrite lookup_insert_ne, lookup_insert_eq.
Qed.

Lemma rec_content_dict (t u c : string) :
  rec_content {[ "title" := t; "url" := u; "content" := c ]} = c.
Proof.
  unfold rec_content.
  by rewrite !lookup_insert_ne, lookup_singleton_eq.
Qed.

Lemma record_of_qualifying_hit (h : fc_hit) :
  qualifying_hit h → carries_information (record_of_hit h).
Proof.
  unfold qualifying_hit, carries_information, record_of_hit.
  rewrite rec_title_dict, rec_url_dict, rec_content_dict. tauto.
Qed.

Lemma primary_records_spec (P : providers) (query : string) :
  primary_records P query
  = match firecrawl_search P query with
    | Returned r => record_of_hit <$> filter qualifying_hit (response_hits r)
    | Raised _ => []
    end.
Proof.
  unfold primary_records. rewrite primary_outcome_spec.
  by destruct (firecrawl_search P query).
Qed.

End Records.

(** C5. When provider A's response holds at least one qualifying hit, the
    primary adapter produces one record per qualifying hit (the hits'
    records, in order) and labels the outcome FireCrawl. *)
Theorem primary_adapter_counts_qualifying_hits (P : providers)
    (query : string) (hits : list fc_hit) :
  firecrawl_search P query = Returned (Some (DataList hits)) →
  (∃ h, h ∈ hits ∧ qualifying_hit h) →
  result_of (primary_adapter P query)
  = Returned (record_of_hit <$> filter qualifying_hit hits, "FireCrawl")
  ∧ length (primary_records P query) = length (filter qualifying_hit hits)
  ∧ snd (primary_outcome P query) = "FireCrawl".
Proof.
  intros Hresp (h & Hin & Hq).
  assert (Hrec : primary_records P query
                 = record_of_hit <$> filter qualifying_hit hits).
  { by rewrite primary_records_spec, Hresp. }
  assert (Hlab : snd (primary_outcome P query) = "FireCrawl").
  { rewrite primary_label, Hrec.
    assert (Hf : h ∈ filter qualifying_hit hits)
      by (apply list_elem_of_filter; done).
    destruct (filter qualifying_hit hits); [| done].
    by apply not_elem_of_nil in Hf. }
  rewrite primary_adapter_returns.
  split; [| split; [by rewrite Hrec, length_fmap | done]].
  f_equal. unfold primary_records in Hrec.
  destruct (primary_outcome P query) as [records label].
  cbn [fst snd] in *. by subst.
Qed.

Lemma primary_adapter_counts_qualifying_hits_witness :
  result_of (primary_adapter Samples.two_cities "cities")
  = Returned
      (record_of_hit
         <$> filter qualifying_hit
               [Samples.paris_hit; Samples.blank_hit; Samples.lyon_hit],
       "FireCrawl")
  ∧ length (primary_records Samples.two_cities "cities")
    = length (filter qualifying_hit
                [Samples.paris_hit; Samples.blank_hit; Samples.lyon_hit])
  ∧ snd (primary_outcome Samples.two_cities "cities") = "FireCrawl".
Proof.
  apply (primary_adapter_counts_qualifying_hits Samples.two_cities "cities"
           [Samples.paris_hit; Samples.blank_hit; Samples.lyon_hit]).
  - reflexivity.
  - exists Samples.paris_hit. split; [apply list_elem_of_here |].
    left. vm_compute. discriminate.
Defined.

(** C6 (amended). Every record the primary adapter retains carries
    information: its title is not the default, or its url is not the
    default, or its content is longer than 10 characters. *)
Theorem primary_records_carry_information (P : providers) (query : string)
    (r : pydict) :
  r ∈ primary_records P query → carries_information r.
Proof.
  rewrite primary_records_spec.
  destruct (firecrawl_search P query) as [resp|e].
  - intros Hr. apply list_elem_of_fmap in Hr as (h & -> & Hh).
    apply list_elem_of_filter in Hh as [Hq _].
    by apply record_of_qualifying_hit.
  - intros Hr. by apply not_elem_of_nil in Hr.
Qed.

Lemma primary_records_carry_information_witness :
  carries_information (record_of_hit Samples.paris_hit).
Proof.
  apply (primary_records_carry_information Samples.paris "capital of France").
  vm_compute. apply list_elem_of_here.
Defined.

(** C6, as stated, fails for the fallback adapter, which filters nothing:
    a hit of provider B without any key is retained as a record whose three
    fields are the defaults, the content being 10 characters long. *)
Lemma fallback_keeps_placeholder_record :
  tavily_record ∅ ∈ fallback_records Samples.tavily_blank "q" 5
  ∧ ¬ carries_information (tavily_record ∅).
Proof.
  split.
  - assert (H : fallback_records Samples.tavily_blank "q" 5
                = [tavily_record ∅]) by reflexivity.
    rewrite H. apply list_elem_of_here.
  - unfold carries_information.
    assert (Ht : rec_title (tavily_record ∅) = "No title") by reflexivity.
    assert (Hu : rec_url (tavily_record ∅) = "No URL") by reflexivity.
    assert (Hc : rec_content (tavily_record ∅) = "No content") by reflexivity.
    rewrite Ht, Hu, Hc. cbn. intros [H | [H | H]]; [done | done | lia].
Qed.

(** ** [str.strip] *)

Section Strip.
Import PyStr PyStrFacts.

Lemma lstrip_spec (s : string) :
  ∃ pre, s = pre +:+ lstrip s ∧ all_space pre = true
         ∧ ∀ c, first_char (lstrip s) = Some c → isspace c = false.
Proof.
  induction s as [|c s (pre & Hs & Hpre & Hfirst)].
  - exists "". by repeat split.
  - cbn [lstrip]. destruct (isspace c) eqn:Hc.
    + exists (String c pre). rewrite app_cons, <- Hs.
      repeat split; [| done]. cbn. by rewrite Hc, Hpre.
    + exists "". repeat split. intros c' [= <-]. done.
Qed.

Lemma rstrip_spec (s : string) :
  ∃ post, s = rstrip s +:+ post ∧ all_space post = true
          ∧ ∀ c, last_char (rstrip s) = Some c → isspace c = false.
Proof.
  induction s as [|c s (post & Hs & Hpost & Hlast)].
  - exists "". by repeat split.
  - cbn [rstrip]. destruct (rstrip s) as [|d r] eqn:Hr.
    + rewrite app_nil_l in Hs. subst post.
      destruct (isspace c) eqn:Hc.
      * exists (String c s). repeat split; [| done]. cbn. by rewrite Hc, Hpost.
      * exists s. repeat split; [done |]. intros c' [= <-]. done.
    + exists post. rewrite app_cons, <- Hs. repeat split; [done |].
      intros c' Hc'. apply Hlast. done.
Qed.

Lemma rstrip_first_char (s : string) (c : ascii) :
  first_char (rstrip s) = Some c → first_char s = Some c.
Proof.
  destruct (rstrip_spec s) as (post & Hs & _).
  destruct (rstrip s) as [|d r]; [done |].
  intros [= ->]. rewrite Hs. done.
Qed.

(** [strip] removes white space at both ends and nothing else. *)
Lemma strip_spec (s : string) :
  (∃ pre post, s = pre +:+ strip s +:+ post
               ∧ all_space pre = true ∧ all_space post = true)
  ∧ (∀ c, first_char (strip s) = Some c → isspace c = false)
  ∧ (∀ c, last_char (strip s) = Some c → isspace c = false).
Proof.
  unfold strip.
  destruct (lstrip_spec s) as (pre & Hs & Hpre & Hfirst).
  destruct (rstrip_spec (lstrip s)) as (post & Hl & Hpost & Hlast).
  split; [| split].
  - exists pre, post. by rewrite <- Hl.
  - intros c Hc. by apply Hfirst, rstrip_first_char.
  - done.
Qed.

End Strip.

Section Faults.

Lemma fallback_records_spec (P : providers) (query : string)
    (max_results : Z) :
  fallback_records P query max_results
  = match tavily_search P query max_results false false with
    | Returned r => tavily_record <$> default [] r
    | Raised _ => []
    end.
Proof.
  unfold fallback_records, result_of, run.
  by rewrite search_with_tavily_run.
Qed.

(** A run is determined by the records of the two adapters and the
    completion endpoint. *)
Lemma search_web_run_ext (P P' : providers) (query : string)
    (max_results : Z) :
  primary_records P query = primary_records P' query →
  fallback_records P query max_results
  = fallback_records P' query max_results →
  chat_completions_create P = chat_completions_create P' →
  run (search_web (ready P) query max_results)
  = run (search_web (ready P') query max_results).
Proof.
  intros Hp Hf Hc. rewrite !search_web_run.
  rewrite !search_outcome_spec, !search_trace_spec.
  unfold synthesized. by rewrite Hp, Hf, Hc.
Qed.

Lemma elem_of_completion_calls (req : completion_request)
    (tr : list event) :
  ChatCompletion req ∈ tr ↔ req ∈ completion_calls tr.
Proof.
  unfold completion_calls. rewrite list_elem_of_omap. split.
  - intros Hin. by exists (ChatCompletion req).
  - intros (ev & Hin & Hev). destruct ev; try done. by injection Hev as ->.
Qed.

(** The completion endpoint is called at most once, and only when the
    search produced records. *)
Lemma search_web_completion_calls (P : providers) (query : string)
    (max_results : Z) :
  completion_calls (trace_of (search_web (ready P) query max_results))
  = let results := fst (search_outcome P query max_results) in
    let label := snd (search_outcome P query max_results) in
    if PyList.truthy results
    then [request_for query label results max_results] else [].
Proof.
  rewrite search_web_trace, search_trace_spec. cbv zeta.
  unfold completion_calls. rewrite omap_app.
  destruct (PyList.truthy (primary_records P query));
    by destruct (PyList.truthy (fst (search_outcome P query max_results))).
Qed.

Lemma synthesized_cases (P : providers) (req : completion_request)
    (sources : string) :
  match chat_completions_create P req with
  | Raised e => synthesized P req sources = Raised e
  | Returned [] =>
      synthesized P req sources
      = Raised (Exn "IndexError" "list index out of range")
  | Returned (None :: _) =>
      synthesized P req sources
      = Raised (Exn "AttributeError"
                    "'NoneType' object has no attribute 'strip'")
  | Returned (Some content :: _) =>
      synthesized P req sources
      = Returned (PyStr.strip content +:+ sources)
  end.
Proof.
  unfold synthesized.
  by destruct (chat_completions_create P req) as [[|[content|] rest]|e].
Qed.

End Faults.

(** C7. An exception raised by either search call is caught: the adapter
    returns zero records, the run is the one of a provider that answered
    with an empty list, and [search_stage] never raises.  An exception
    raised by the completion-endpoint call is not caught: [search_web]
    raises it.  In any environment, what [search_web] raises is never the
    exception of a search call: it comes from building the OpenAI client
    at line 52, before any upstream call, or from the completion call and
    the reading of its response. *)
Theorem search_faults_caught_completion_faults_propagate (P : providers)
    (query : string) (max_results : Z) :
  (∀ e, firecrawl_search P query = Raised e →
        result_of (primary_adapter P query) = Returned ([], "Unknown")
        ∧ run (search_web (ready P) query max_results)
          = run (search_web (ready (silence_firecrawl P)) query max_results))
  ∧ (∀ e, tavily_search P query max_results false false = Raised e →
          result_of (search_with_tavily P query max_results) = Returned []
          ∧ run (search_web (ready P) query max_results)
            = run (search_web (ready (silence_tavily P)) query max_results))
  ∧ result_of (search_stage P query max_results)
    = Returned (search_outcome P query max_results)
  ∧ (∀ req e,
       ChatCompletion req ∈ trace_of (search_web (ready P) query max_results) →
       chat_completions_create P req = Raised e →
       result_of (search_web (ready P) query max_results) = Raised e)
  ∧ (∀ E e,
       services E = P →
       result_of (search_web E query max_results) = Raised e →
       (openai_client E = Raised e
        ∧ trace_of (search_web E query max_results) = [])
       ∨ (openai_client E = Returned tt
          ∧ ∃ req,
              completion_calls (trace_of (search_web E query max_results))
              = [req]
              ∧ (chat_completions_create P req = Raised e
                 ∨ chat_completions_create P req = Returned []
                 ∨ ∃ rest, chat_completions_create P req
                           = Returned (None :: rest)))).
Proof.
  split; [| split; [| split; [| split]]].
  - intros e He. split.
    + rewrite primary_adapter_returns, primary_outcome_spec, He. done.
    + apply search_web_run_ext; [| done | done].
      rewrite !primary_records_spec, He. done.
  - intros e He. split.
    + rewrite search_with_tavily_returns, fallback_records_spec, He. done.
    + apply search_web_run_ext; [done | | done].
      rewrite !fallback_records_spec, He. done.
  - apply search_stage_returns.
  - intros req e Hin He.
    apply elem_of_completion_calls in Hin.
    rewrite search_web_completion_calls in Hin.
    rewrite search_web_result. cbv zeta in *.
    destruct (PyList.truthy (fst (search_outcome P query max_results))).
    + apply list_elem_of_singleton in Hin. subst req.
      unfold synthesized. by rewrite He.
    + by apply not_elem_of_nil in Hin.
  - intros E e <-.
    destruct (environment_cases E) as [[e0 Hraise] | Hbuilt].
    { unfold result_of, trace_of.
      rewrite (search_web_client_fails E query max_results e0 Hraise).
      cbn [fst snd]. intros [= ->]. by left. }
    rewrite (search_web_client_built E query max_results Hbuilt).
    rewrite search_web_completion_calls, search_web_result.
    cbv zeta.
    destruct (PyList.truthy
                (fst (search_outcome (services E) query max_results)));
      [| done].
    intros Hs. right. split; [done |]. eexists. split; [done |].
    match type of Hs with
    | synthesized ?P ?req ?sources = _ =>
        pose proof (synthesized_cases P req sources) as Hc
    end.
    destruct (chat_completions_create (services E) _)
      as [[|[content|] rest]|e'].
    + by right; left.
    + congruence.
    + right; right. by exists rest.
    + left. congruence.
Qed.

Lemma search_faults_caught_completion_faults_propagate_witness :
  result_of (search_web (ready Samples.synthesis_down) "capital of France" 5)
  = Raised Samples.boom.
Proof.
  apply (proj1 (proj2 (proj2 (proj2
           (search_faults_caught_completion_faults_propagate
              Samples.synthesis_down "capital of France" 5))))
           (request_for "capital of France" "FireCrawl"
              [record_of_hit Samples.paris_hit] 5)).
  - vm_compute. apply list_elem_of_further, list_elem_of_here.
  - reflexivity.
Defined.

(** C8. On the success path the return value is the text of the completion
    endpoint with the white space at its two ends removed, then a blank
    line, then the CitationBlock: the line [Sources (via label):] followed
    by one line [[i] title - url] per included record. *)
Theorem success_value_is_answer_then_citations (P : providers)
    (query : string) (max_results : Z) (results : list pydict)
    (label content : string) (rest : oa_response) :
  search_outcome P query max_results = (results, label) →
  results ≠ [] →
  chat_completions_create P (request_for query label results max_results)
  = Returned (Some content :: rest) →
  result_of (search_web (ready P) query max_results)
  = Returned (PyStr.strip content +:+ blank_line
              +:+ citation_block label (PyList.slice_to max_results results))
  ∧ (∃ pre post, content = pre +:+ PyStr.strip content +:+ post
                 ∧ PyStr.all_space pre = true ∧ PyStr.all_space post = true)
  ∧ (∀ c, PyStr.first_char (PyStr.strip content) = Some c →
          PyStr.isspace c = false)
  ∧ (∀ c, PyStr.last_char (PyStr.strip content) = Some c →
          PyStr.isspace c = false)
  ∧ (∀ k r, PyList.slice_to max_results results !! k = Some r →
            numbered citation_line (PyList.slice_to max_results results) !! k
            = Some ("[" +:+ PyStr.of_nat (S k) +:+ "] " +:+ rec_title r
                    +:+ " - " +:+ rec_url r +:+ PyStr.nl)).
Proof.
  intros Hout Hne Hreply.
  split; [| split; [apply strip_spec | split; [apply strip_spec |
                                      split; [apply strip_spec |]]]].
  - rewrite search_web_result, Hout. cbv zeta. cbn [fst snd].
    apply truthy_true_iff in Hne. rewrite Hne.
    unfold synthesized. rewrite Hreply. cbn.
    by rewrite format_sources_block.
  - intros k r Hk. unfold numbered. by rewrite numbered_from_lookup, Hk.
Qed.

Lemma success_value_is_answer_then_citations_witness :
  result_of (search_web (ready Samples.paris) "capital of France" 5)
  = Returned ("Paris." +:+ blank_line +:+ "Sources (via FireCrawl):"
              +:+ PyStr.nl +:+ "[1] Paris - https://x" +:+ PyStr.nl).
Proof.
  apply (proj1 (success_value_is_answer_then_citations Samples.paris
                  "capital of France" 5 [record_of_hit Samples.paris_hit]
                  "FireCrawl" "  Paris.  " [] eq_refl
                  ltac:(discriminate) eq_refl)).
Defined.

(** C9. Whenever the search produced a record, the label handed on is
    FireCrawl or Tavily, never the initial Unknown, and it is this label
    that the one request to the completion endpoint (context and prompt)
    and every value returned on the success path (citation block) carry. *)
Theorem success_label_is_firecrawl_or_tavily (P : providers)
    (query : string) (max_results : Z) (results : list pydict)
    (label : string) :
  search_outcome P query max_results = (results, label) →
  results ≠ [] →
  (label = "FireCrawl" ∨ label = "Tavily")
  ∧ label ≠ "Unknown"
  ∧ completion_calls (trace_of (search_web (ready P) query max_results))
    = [build_request
         (build_prompt query
            (context_block label (PyList.slice_to max_results results))
            label)]
  ∧ (∀ answer,
       result_of (search_web (ready P) query max_results) = Returned answer →
       ∃ content,
         answer
         = PyStr.strip content +:+ blank_line
           +:+ citation_block label (PyList.slice_to max_results results)).
Proof.
  intros Hout Hne.
  assert (Hlabel : label = "FireCrawl" ∨ label = "Tavily").
  { rewrite search_outcome_spec in Hout.
    destruct (PyList.truthy (primary_records P query)).
    - left. congruence.
    - injection Hout as Hr Hl. rewrite Hr in Hl.
      apply truthy_true_iff in Hne. rewrite Hne in Hl. by right. }
  split; [done |]. split; [by destruct Hlabel as [-> | ->] |].
  apply truthy_true_iff in Hne. split.
  - rewrite search_web_completion_calls, Hout. cbv zeta. cbn [fst snd].
    rewrite Hne. unfold request_for. by rewrite format_context_block.
  - intros answer. rewrite search_web_result, Hout. cbv zeta. cbn [fst snd].
    rewrite Hne. intros Hs.
    match type of Hs with
    | synthesized P ?req ?sources = _ =>
        pose proof (synthesized_cases P req sources) as Hc
    end.
    destruct (chat_completions_create P _) as [[|[content|] rest]|e];
      try congruence.
    exists content. rewrite format_sources_block in Hs, Hc. congruence.
Qed.

Lemma success_label_is_firecrawl_or_tavily_witness :
  ("Tavily" = "FireCrawl" ∨ "Tavily" = "Tavily")
  ∧ "Tavily" ≠ "Unknown"
  ∧ completion_calls (trace_of (search_web (ready Samples.tavily_two) "q" 5))
    = [build_request
         (build_prompt "q"
            (context_block "Tavily"
               (PyList.slice_to 5 (fallback_records Samples.tavily_two "q" 5)))
            "Tavily")]
  ∧ (∀ answer,
       result_of (search_web (ready Samples.tavily_two) "q" 5) = Returned answer →
       ∃ content,
         answer
         = PyStr.strip content +:+ blank_line
           +:+ citation_block "Tavily"
                 (PyList.slice_to 5
                    (fallback_records Samples.tavily_two "q" 5))).
Proof.
  apply (success_label_is_firecrawl_or_tavily Samples.tavily_two "q" 5
           (fallback_records Samples.tavily_two "q" 5) "Tavily").
  - reflexivity.
  - vm_compute. discriminate.
Defined.

Section Bounds.

Lemma slice_to_zero {A} (l : list A) : PyList.slice_to 0 l = [].
Proof. reflexivity. Qed.

Lemma slice_to_below {A} (n : Z) (l : list A) :
  n < 0 → Z.of_nat (length l) ≤ - n → PyList.slice_to n l = [].
Proof.
  intros Hn Hl. rewrite slice_to_negative by done.
  replace (length l - Z.to_nat (- n))%nat with 0%nat by lia. done.
Qed.

Lemma length_slice_to_negative {A} (n : Z) (l : list A) :
  n < 0 →
  Z.of_nat (length (PyList.slice_to n l))
  = Z.max 0 (Z.of_nat (length l) + n).
Proof.
  intros Hn. rewrite slice_to_negative by done. rewrite length_take. lia.
Qed.

End Bounds.

(** C10 (amended). With [max_results <= 0] and at least one record
    produced, [search_web] does not take the diagnostic path: it calls the
    completion endpoint once and returns what lines 149-160 make of its
    answer and the citation block.  Both blocks cover the records kept by
    the slice [results[:max_results]]: none when [max_results] is 0 or the
    list has at most [-max_results] records, and otherwise, [max_results]
    being negative, all but the last [-max_results]. *)
Theorem nonpositive_bound_still_synthesizes (P : providers)
    (query : string) (max_results : Z) (results : list pydict)
    (label : string) :
  max_results ≤ 0 →
  search_outcome P query max_results = (results, label) →
  results ≠ [] →
  let kept := PyList.slice_to max_results results in
  completion_calls (trace_of (search_web (ready P) query max_results))
  = [build_request (build_prompt query (context_block label kept) label)]
  ∧ result_of (search_web (ready P) query max_results)
    = synthesized P
        (build_request (build_prompt query (context_block label kept) label))
        (blank_line +:+ citation_block label kept)
  ∧ (∀ content rest,
       chat_completions_create P
         (build_request (build_prompt query (context_block label kept) label))
       = Returned (Some content :: rest) →
       result_of (search_web (ready P) query max_results)
       = Returned (PyStr.strip content +:+ blank_line
                   +:+ citation_block label kept))
  ∧ (max_results = 0 ∨ Z.of_nat (length results) ≤ - max_results →
     kept = []
     ∧ context_block label kept = context_header label
     ∧ citation_block label kept = sources_header label)
  ∧ (max_results < 0 →
     kept = take (length results - Z.to_nat (- max_results)) results
     ∧ Z.of_nat (length kept)
       = Z.max 0 (Z.of_nat (length results) + max_results)).
Proof.
  intros Hn Hout Hne kept.
  assert (Hcalls :
    completion_calls (trace_of (search_web (ready P) query max_results))
    = [build_request (build_prompt query (context_block label kept) label)]).
  { rewrite search_web_completion_calls, Hout. cbv zeta. cbn [fst snd].
    apply truthy_true_iff in Hne. rewrite Hne.
    unfold request_for. by rewrite format_context_block. }
  assert (Hres :
    result_of (search_web (ready P) query max_results)
    = synthesized P
        (build_request (build_prompt query (context_block label kept) label))
        (blank_line +:+ citation_block label kept)).
  { rewrite search_web_result, Hout. cbv zeta. cbn [fst snd].
    apply truthy_true_iff in Hne. rewrite Hne.
    unfold request_for.
    by rewrite format_context_block, format_sources_block. }
  split; [done |]. split; [done |]. split; [| split].
  - intros content rest Hreply. rewrite Hres.
    unfold synthesized. by rewrite Hreply.
  - intros Hzero.
    assert (Hk : kept = []).
    { unfold kept. destruct Hzero as [-> | Hlen]; [apply slice_to_zero |].
      destruct (decide (max_results = 0)) as [-> | Hnz];
        [apply slice_to_zero | apply slice_to_below; lia]. }
    rewrite Hk. split; [done |].
    unfold context_block, citation_block, numbered. cbn.
    by rewrite !PyStrFacts.app_nil_r.
  - intros Hneg. split.
    + by apply slice_to_negative.
    + by apply length_slice_to_negative.
Qed.

Lemma nonpositive_bound_still_synthesizes_witness :
  result_of (search_web (ready Samples.paris) "capital of France" 0)
  = Returned ("Paris." +:+ blank_line +:+ "Sources (via FireCrawl):"
              +:+ PyStr.nl).
Proof.
  apply (proj1 (proj2 (proj2
           (nonpositive_bound_still_synthesizes Samples.paris
              "capital of France" 0 [record_of_hit Samples.paris_hit]
              "FireCrawl" ltac:(lia) eq_refl ltac:(discriminate))))
           "  Paris.  " [] eq_refl).
Defined.

(** C10, as stated, fails for a negative bound: with two records and
    [max_results = -1] the slice keeps the first record, so the context
    holds one entry and the citation block one line. *)
Lemma negative_bound_keeps_leading_records :
  (-1 ≤ 0)
  ∧ primary_records Samples.two_cities "cities"
    = [record_of_hit Samples.paris_hit; record_of_hit Samples.lyon_hit]
  ∧ completion_calls (trace_of (search_web (ready Samples.two_cities) "cities" (-1)))
    = [build_request
         (build_prompt "cities"
            (context_header "FireCrawl"
             +:+ context_entry 1 (record_of_hit Samples.paris_hit))
            "FireCrawl")]
  ∧ result_of (search_web (ready Samples.two_cities) "cities" (-1))
    = Returned ("Two cities." +:+ blank_line +:+ sources_header "FireCrawl"
                +:+ "[1] Paris - https://x" +:+ PyStr.nl)
  ∧ result_of (search_web (ready Samples.two_cities) "cities" (-1))
    ≠ Returned ("Two cities." +:+ blank_line +:+ sources_header "FireCrawl").
Proof.
  split; [lia |]. split; [reflexivity |]. split; [reflexivity |].
  split; [reflexivity |]. vm_compute. discriminate.
Qed.

(** ** End-to-end scenarios of the specification (section 8) *)

(** Scenario 2: provider A raises and provider B returns two results; the
    label is Tavily and both results are cited. *)
Example scenario_fallback_to_tavily :
  run (search_web (ready Samples.tavily_two) "q" 5)
  = ([FirecrawlSearch "q"; TavilySearch "q" 5 false false;
      ChatCompletion
        (request_for "q" "Tavily"
           (fallback_records Samples.tavily_two "q" 5) 5)],
     Returned ("Both." +:+ PyStr.nl +:+ PyStr.nl
               +:+ "Sources (via Tavily):" +:+ PyStr.nl
               +:+ "[1] A - https://a" +:+ PyStr.nl
               +:+ "[2] B - https://b" +:+ PyStr.nl)).
Proof. reflexivity. Qed.

(** Scenario 3: both providers return nothing; the two searches are the
    only calls. *)
Example scenario_no_results :
  run (search_web (ready Samples.silent) "q" 5)
  = ([FirecrawlSearch "q"; TavilySearch "q" 5 false false],
     Returned (diagnostic "q")).
Proof. reflexivity. Qed.

(** The OpenAI client cannot be built: [search_web] raises at line 52,
    before any search. *)
Example scenario_missing_openai_key :
  run (search_web Samples.missing_key "capital of France" 5)
  = ([], Raised Samples.key_error).
Proof. reflexivity. Qed.

(** The entry of a record at position 1, as the model receives it. *)
Example scenario_context_entry :
  context_entry 1 (record_of_hit Samples.paris_hit)
  = "[1] Source: https://x" +:+ PyStr.nl
    +:+ " Title: Paris" +:+ PyStr.nl
    +:+ " Content: Paris is the capital..." +:+ PyStr.nl +:+ PyStr.nl.
Proof. reflexivity. Qed.

(** [str.strip] on a text with white space at both ends and inside. *)
Example strip_keeps_inner_space :
  PyStr.strip (" " +:+ PyStr.nl +:+ "a b" +:+ PyStr.nl) = "a b".
Proof. reflexivity. Qed.

(** A negative bound counts from the end of the list. *)
Example slice_to_minus_one : PyList.slice_to (-1) [1; 2; 3] = [1; 2].
Proof. reflexivity. Qed.

(** * Further properties of the adapters *)

Section RecordShape.

Lemma dom_three_keys (t u c : string) :
  dom ({[ "title" := t; "url" := u; "content" := c ]} : pydict)
  = ({[ "title"; "url"; "content" ]} : gset string).
Proof. rewrite !dom_insert_L, dom_singleton_L. by rewrite (assoc_L _). Qed.

Lemma lookup_title_dict (t u c : string) :
  ({[ "title" := t; "url" := u; "content" := c ]} : pydict) !! "title"
  = Some t.
Proof. by rewrite lookup_insert_eq. Qed.

Lemma lookup_url_dict (t u c : string) :
  ({[ "title" := t; "url" := u; "content" := c ]} : pydict) !! "url"
  = Some u.
Proof. by rewrite lookup_insert_ne, lookup_insert_eq. Qed.

Lemma lookup_content_dict (t u c : string) :
  ({[ "title" := t; "url" := u; "content" := c ]} : pydict) !! "content"
  = Some c.
Proof. by rewrite !lookup_insert_ne, lookup_singleton_eq. Qed.

Lemma truthy_nonempty (s : string) : PyStr.truthy s = true ↔ s ≠ "".
Proof. by destruct s. Qed.

Lemma attr_or_nonempty (attr : option string) (fallback : string) :
  fallback ≠ "" → attr_or attr fallback ≠ "".
Proof.
  intros Hf. apply truthy_nonempty, attr_or_truthy. by apply truthy_nonempty.
Qed.

(** When [attr_or] gives back the placeholder itself. *)
Lemma attr_or_placeholder (attr : option string) (placeholder : string) :
  placeholder ≠ "" →
  attr_or attr placeholder = placeholder
  ↔ attr = None ∨ attr = Some "" ∨ attr = Some placeholder.
Proof.
  intros Hp. unfold attr_or. destruct attr as [[|c s]|]; cbn.
  - naive_solver.
  - split; [intros <-; eauto |]. intros [H | [H | H]]; congruence.
  - naive_solver.
Qed.

End RecordShape.

(** X1. [search_with_tavily] turns the hits of provider B into records
    one for one and in order.  Each record has exactly the keys [title],
    [url] and [content]; a key the hit has keeps its value, even an empty
    string, a key it lacks gets the default, and any other key of the hit
    is dropped.  A response without a [results] entry gives no record. *)
Theorem tavily_hits_normalised (P : providers) (query : string)
    (max_results : Z) (resp : tv_response) :
  tavily_search P query max_results false false = Returned resp →
  length (fallback_records P query max_results) = length (default [] resp)
  ∧ (∀ k hit,
       default [] resp !! k = Some hit →
       ∃ r, fallback_records P query max_results !! k = Some r
            ∧ dom r = ({[ "title"; "url"; "content" ]} : gset string)
            ∧ r !! "title" = Some (default "No title" (hit !! "title"))
            ∧ r !! "url" = Some (default "No URL" (hit !! "url"))
            ∧ r !! "content" = Some (default "No content" (hit !! "content")))
  ∧ (resp = None → fallback_records P query max_results = []).
Proof.
  intros Hresp. rewrite fallback_records_spec, Hresp.
  split; [by rewrite length_fmap |]. split.
  - intros k hit Hk. exists (tavily_record hit).
    rewrite list_lookup_fmap, Hk. split; [done |]. unfold tavily_record.
    rewrite dom_three_keys, lookup_title_dict, lookup_url_dict,
      lookup_content_dict. done.
  - by intros ->.
Qed.

Lemma tavily_hits_normalised_witness :
  ∃ r, fallback_records Samples.tavily_sparse "q" 5 !! 0%nat = Some r
       ∧ dom r = ({[ "title"; "url"; "content" ]} : gset string)
       ∧ r !! "title" = Some ""
       ∧ r !! "url" = Some "No URL"
       ∧ r !! "content" = Some "No content".
Proof.
  exact (proj1 (proj2 (tavily_hits_normalised Samples.tavily_sparse "q" 5
                         (Some [ {[ "title" := ""; "score" := "0.9" ]} ])
                         eq_refl))
           0%nat {[ "title" := ""; "score" := "0.9" ]} eq_refl).
Defined.

(** X2. Every record the primary adapter retains has a non-empty title,
    url and content: an attribute that is missing, [None] or the empty
    string has been replaced by its default. *)
Theorem primary_records_fields_nonempty (P : providers) (query : string)
    (r : pydict) :
  r ∈ primary_records P query →
  ∃ t u c, r !! "title" = Some t ∧ r !! "url" = Some u
           ∧ r !! "content" = Some c
           ∧ t ≠ "" ∧ u ≠ "" ∧ c ≠ "".
Proof.
  rewrite primary_records_spec.
  destruct (firecrawl_search P query) as [resp|e];
    [| by intros ?%not_elem_of_nil].
  intros (h & -> & _)%list_elem_of_fmap.
  exists (extract_title h), (extract_url h), (extract_content h).
  unfold record_of_hit.
  rewrite lookup_title_dict, lookup_url_dict, lookup_content_dict.
  repeat split; try done.
  - by apply attr_or_nonempty.
  - by apply attr_or_nonempty.
  - unfold extract_content. by do 2 apply attr_or_nonempty.
Qed.

Lemma primary_records_fields_nonempty_witness :
  ∃ t u c, record_of_hit Samples.markdown_hit !! "title" = Some t
           ∧ record_of_hit Samples.markdown_hit !! "url" = Some u
           ∧ record_of_hit Samples.markdown_hit !! "content" = Some c
           ∧ t ≠ "" ∧ u ≠ "" ∧ c ≠ "".
Proof.
  apply (primary_records_fields_nonempty
           {| firecrawl_search :=
                fun _ => Returned (Some (DataList [Samples.markdown_hit]));
              tavily_search := fun _ _ _ _ => Returned None;
              chat_completions_create := Samples.replies "x" |} "q").
  vm_compute. apply list_elem_of_here.
Defined.

(** X3. Every record that reaches the formatter, from either adapter, has
    exactly the keys [title], [url] and [content], so the defaults of the
    [get] calls of lines 114-116 and 129-130 are never used. *)
Theorem formatter_defaults_never_used (P : providers) (query : string)
    (max_results : Z) (r : pydict) :
  r ∈ fst (search_outcome P query max_results) →
  dom r = ({[ "title"; "url"; "content" ]} : gset string)
  ∧ r !! "title" = Some (rec_title r)
  ∧ r !! "url" = Some (rec_url r)
  ∧ r !! "content" = Some (rec_content r).
Proof.
  assert (Hshape : ∀ t u c,
    let d : pydict := {[ "title" := t; "url" := u; "content" := c ]} in
    dom d = ({[ "title"; "url"; "content" ]} : gset string)
    ∧ d !! "title" = Some (rec_title d) ∧ d !! "url" = Some (rec_url d)
    ∧ d !! "content" = Some (rec_content d)).
  { intros t u c d. unfold d.
    rewrite dom_three_keys, rec_title_dict, rec_url_dict, rec_content_dict,
      lookup_title_dict, lookup_url_dict, lookup_content_dict. done. }
  rewrite search_outcome_spec.
  destruct (PyList.truthy (primary_records P query)); cbn [fst].
  - rewrite primary_records_spec.
    destruct (firecrawl_search P query) as [resp|e];
      [| by intros ?%not_elem_of_nil].
    intros (h & -> & _)%list_elem_of_fmap. apply Hshape.
  - rewrite fallback_records_spec.
    destruct (tavily_search P query max_results false false) as [resp|e];
      [| by intros ?%not_elem_of_nil].
    intros (h & -> & _)%list_elem_of_fmap. apply Hshape.
Qed.

Lemma formatter_defaults_never_used_witness :
  dom (tavily_record ∅) = ({[ "title"; "url"; "content" ]} : gset string)
  ∧ tavily_record ∅ !! "title" = Some (rec_title (tavily_record ∅))
  ∧ tavily_record ∅ !! "url" = Some (rec_url (tavily_record ∅))
  ∧ tavily_record ∅ !! "content" = Some (rec_content (tavily_record ∅)).
Proof.
  apply (formatter_defaults_never_used Samples.tavily_blank "q" 5).
  vm_compute. apply list_elem_of_here.
Defined.

Section Filter.

Lemma longer_than_placeholder (content : string) :
  (10 < String.length content)%nat → content ≠ "No content".
Proof. intros Hl ->. cbn in Hl. lia. Qed.

Lemma longer_is_truthy (content : string) :
  (10 < String.length content)%nat → PyStr.truthy content = true.
Proof. destruct content; cbn; [lia | done]. Qed.

Lemma qualifying_iff_carries (h : fc_hit) :
  qualifying_hit h ↔ carries_information (record_of_hit h).
Proof.
  unfold qualifying_hit, carries_information, record_of_hit.
  rewrite rec_title_dict, rec_url_dict, rec_content_dict.
  pose proof (longer_than_placeholder (extract_content h)). tauto.
Qed.

End Filter.

(** X4. The test of line 70 reduces to three comparisons: for all
    strings, the truth test on the content and its comparison with the
    placeholder change nothing, since a content of more than 10 characters
    is neither empty nor the 10-character placeholder. *)
Theorem content_test_reduces_to_length (title url content : string) :
  has_actual_content title url content
  = negb (String.eqb title "No title") || negb (String.eqb url "No URL")
    || (10 <? PyStr.len content).
Proof.
  unfold has_actual_content, PyStr.len.
  destruct (Z.ltb_spec 10 (Z.of_nat (String.length content))) as [Hl|Hl].
  - rewrite longer_is_truthy by lia.
    destruct (String.eqb_spec content "No content") as [Hc|Hc]; [| done].
    apply longer_than_placeholder in Hc; [done | lia].
  - by rewrite !andb_false_r.
Qed.

(** X5. The primary adapter drops no informative hit: for a hit of the
    response, its record is among the retained ones exactly when that
    record carries information (title or url off the default, or content
    longer than 10 characters). *)
Theorem informative_hits_are_retained (P : providers) (query : string)
    (hits : list fc_hit) (h : fc_hit) :
  firecrawl_search P query = Returned (Some (DataList hits)) →
  h ∈ hits →
  (record_of_hit h ∈ primary_records P query
   ↔ carries_information (record_of_hit h)).
Proof.
  intros Hresp Hin. rewrite primary_records_spec, Hresp. cbn [response_hits].
  split.
  - intros (h' & Heq & Hh')%list_elem_of_fmap.
    apply list_elem_of_filter in Hh' as [Hq _].
    rewrite Heq. by apply qualifying_iff_carries.
  - intros Hc. apply list_elem_of_fmap. exists h. split; [done |].
    apply list_elem_of_filter. split; [| done].
    by apply qualifying_iff_carries.
Qed.

Lemma informative_hits_are_retained_witness :
  record_of_hit Samples.blank_hit ∈ primary_records Samples.two_cities "x"
  ↔ carries_information (record_of_hit Samples.blank_hit).
Proof.
  apply (informative_hits_are_retained Samples.two_cities "x"
           [Samples.paris_hit; Samples.blank_hit; Samples.lyon_hit]).
  - reflexivity.
  - apply list_elem_of_further, list_elem_of_here.
Defined.

(** X6. Which hits are dropped, on the attributes of the hit: a hit does
    not qualify exactly when its title is missing, empty or the literal
    [No title], its url is missing, empty or the literal [No URL], and its
    extracted content has at most 10 characters.  The extracted content is
    the markdown when that is a non-empty string, and otherwise the
    content attribute when that is a non-empty string. *)
Theorem dropped_hit_characterised (h : fc_hit) :
  (¬ qualifying_hit h
   ↔ (hit_title h = None ∨ hit_title h = Some ""
      ∨ hit_title h = Some "No title")
     ∧ (hit_url h = None ∨ hit_url h = Some ""
        ∨ hit_url h = Some "No URL")
     ∧ (String.length (extract_content h) ≤ 10)%nat)
  ∧ (∀ m, hit_markdown h = Some m → m ≠ "" → extract_content h = m)
  ∧ (∀ c, (hit_markdown h = None ∨ hit_markdown h = Some "") →
          hit_content h = Some c → c ≠ "" → extract_content h = c)
  ∧ ((hit_markdown h = None ∨ hit_markdown h = Some "") →
     (hit_content h = None ∨ hit_content h = Some "") →
     extract_content h = "No content").
Proof.
  split; [| split; [| split]].
  - unfold qualifying_hit, extract_title, extract_url.
    rewrite <- (attr_or_placeholder (hit_title h) "No title") by done.
    rewrite <- (attr_or_placeholder (hit_url h) "No URL") by done.
    pose proof (longer_than_placeholder (extract_content h)) as Hlong.
    destruct (decide (attr_or (hit_title h) "No title" = "No title"));
      destruct (decide (attr_or (hit_url h) "No URL" = "No URL"));
      destruct (decide (10 < String.length (extract_content h))%nat);
      intuition lia.
  - intros m Hm Hne. unfold extract_content, attr_or. rewrite Hm.
    by destruct m.
  - intros c Hm Hc Hne. unfold extract_content, attr_or. rewrite Hc.
    destruct Hm as [-> | ->]; by destruct c.
  - intros Hm Hc. unfold extract_content, attr_or.
    destruct Hm as [-> | ->]; destruct Hc as [-> | ->]; done.
Qed.

(** * Further properties of the formatter *)

Section SliceFacts.

Lemma slice_to_app_exact (n : nat) (a b : string) :
  String.length a = n → PyStr.slice_to n (a +:+ b) = a.
Proof.
  unfold PyStr.slice_to. revert a.
  induction n as [|n IH]; intros [|c a] Hl; cbn in Hl; try lia.
  - by destruct b.
  - rewrite PyStrFacts.app_cons. cbn. rewrite IH by lia. done.
Qed.

Lemma slice_to_short (n : nat) (s : string) :
  (String.length s ≤ n)%nat → PyStr.slice_to n s = s.
Proof.
  unfold PyStr.slice_to. revert s.
  induction n as [|n IH]; intros [|c s] Hl; cbn in *; try done; try lia.
  rewrite IH by lia. done.
Qed.

End SliceFacts.

(** X7. For a bound [max_results >= 0] both blocks hold
    [min(max_results, M)] entries of the [M] records; when the bound is
    at least [M] every record is formatted and cited. *)
Theorem formatter_counts_min (label : string) (results : list pydict)
    (max_results : Z) :
  0 ≤ max_results →
  length (numbered context_entry (PyList.slice_to max_results results))
  = Nat.min (Z.to_nat max_results) (length results)
  ∧ length (numbered citation_line (PyList.slice_to max_results results))
    = Nat.min (Z.to_nat max_results) (length results)
  ∧ (Z.of_nat (length results) ≤ max_results →
     format_context label results max_results = context_block label results
     ∧ format_sources label results max_results
       = blank_line +:+ citation_block label results).
Proof.
  intros Hn. unfold numbered. rewrite !length_numbered_from.
  rewrite slice_to_nonneg, length_take by done.
  split; [done |]. split; [done |]. intros Hall.
  rewrite format_context_block, format_sources_block.
  rewrite slice_to_nonneg by done. rewrite take_ge by lia. done.
Qed.

Lemma formatter_counts_min_witness :
  length (numbered citation_line (PyList.slice_to 5 Samples.three_records))
  = 3%nat
  ∧ format_sources "Tavily" Samples.three_records 5
    = blank_line +:+ citation_block "Tavily" Samples.three_records.
Proof.
  pose proof (formatter_counts_min "Tavily" Samples.three_records 5
                ltac:(lia)) as H.
  split; [exact (proj1 (proj2 H)) |].
  exact (proj2 (proj2 (proj2 H) ltac:(cbn; lia))).
Defined.

(** X8. The content of a context entry never exceeds 1503 characters and
    keeps the first 1500 characters of the record's content; truncating
    twice is truncating once; and a content of 1501 or 1502 characters
    comes out longer than it went in. *)
Theorem truncate_content_bounded (content : string) :
  (String.length (truncate_content content) ≤ 1503)%nat
  ∧ truncate_content (truncate_content content) = truncate_content content
  ∧ PyStr.slice_to 1500 (truncate_content content)
    = PyStr.slice_to 1500 content
  ∧ ((1500 < String.length content < 1503)%nat →
     (String.length content < String.length (truncate_content content))%nat).
Proof.
  destruct (decide (String.length content ≤ 1500)%nat) as [Hs|Hl].
  - rewrite !truncate_short; rewrite ?truncate_short; try done.
    repeat split; lia.
  - assert (Hlong : (1500 < String.length content)%nat) by lia.
    assert (Hp : String.length (PyStr.slice_to 1500 content) = 1500%nat).
    { rewrite PyStrFacts.length_slice_to. lia. }
    pose proof (length_truncate_long content Hlong) as Hlen.
    split; [lia |]. split; [| split; [| lia]].
    + rewrite (truncate_long (truncate_content content)) by lia.
      rewrite (truncate_long content) by done.
      by rewrite slice_to_app_exact.
    + rewrite (truncate_long content) by done.
      by rewrite slice_to_app_exact.
Qed.

(** X9. Called without [max_results], in any environment, the handler
    asks provider B, if at all, for 5 results, and formats and cites at
    most 5 records, however many provider A returned. *)
Theorem default_bound_is_five (E : environment) (query : string) :
  (∀ call, call ∈ tavily_calls (trace_of (search_web_default E query)) →
           call = (query, 5, false, false))
  ∧ (∀ req, req ∈ completion_calls (trace_of (search_web_default E query)) →
       ∃ results label kept,
         search_outcome (services E) query 5 = (results, label)
         ∧ kept = take 5 results
         ∧ (length kept ≤ 5)%nat
         ∧ req = build_request
                   (build_prompt query (context_block label kept) label)
         ∧ ∀ answer,
             result_of (search_web_default E query) = Returned answer →
             ∃ content,
               answer = PyStr.strip content +:+ blank_line
                        +:+ citation_block label kept).
Proof.
  unfold search_web_default, default_max_results.
  destruct (environment_cases E) as [[e0 Hraise] | Hbuilt].
  { unfold trace_of.
    rewrite (search_web_client_fails E query 5 e0 Hraise). cbn [fst].
    split; [intros call | intros req]; by intros ?%not_elem_of_nil. }
  rewrite (search_web_client_built E query 5 Hbuilt).
  generalize (services E). intros P. split.
  - intros call. rewrite search_web_trace, search_trace_spec. cbv zeta.
    unfold tavily_calls. rewrite omap_app.
    destruct (PyList.truthy (fst (search_outcome P query 5)));
      destruct (PyList.truthy (primary_records P query)); cbn;
      intros Hin; try (by apply not_elem_of_nil in Hin);
      by apply list_elem_of_singleton in Hin.
  - intros req. rewrite search_web_completion_calls, search_web_result.
    cbv zeta. destruct (search_outcome P query 5) as [results label].
    cbn [fst snd].
    destruct (PyList.truthy results); [| by intros ?%not_elem_of_nil].
    intros ->%list_elem_of_singleton.
    exists results, label, (take 5 results).
    split; [done |]. split; [done |].
    split; [rewrite length_take; lia |].
    unfold request_for.
    rewrite format_context_block, format_sources_block.
    rewrite (slice_to_nonneg 5) by lia. change (Z.to_nat 5) with 5%nat.
    split; [done |]. intros answer Hs.
    match type of Hs with
    | synthesized P ?r ?sources = _ =>
        pose proof (synthesized_cases P r sources) as Hc
    end.
    destruct (chat_completions_create P _) as [[|[content|] rest]|e];
      try congruence.
    exists content. congruence.
Qed.

(** * Further properties of the handler *)

(** X10. An invocation whose OpenAI client cannot be built (line 52)
    makes no upstream call and raises what the constructor raised.  Every
    other invocation makes two or three upstream calls and never repeats
    one: provider A first; then provider B only if provider A gave no
    record; then the completion endpoint only if there is a record. *)
Theorem upstream_calls_shape (E : environment) (query : string)
    (max_results : Z) :
  let P := services E in
  let tr := trace_of (search_web E query max_results) in
  (∃ e, openai_client E = Raised e ∧ tr = []
        ∧ result_of (search_web E query max_results) = Raised e)
  ∨ (openai_client E = Returned tt
     ∧ ((primary_records P query ≠ []
         ∧ ∃ req, tr = [FirecrawlSearch query; ChatCompletion req])
        ∨ (primary_records P query = []
           ∧ fallback_records P query max_results = []
           ∧ tr = [FirecrawlSearch query;
                   TavilySearch query max_results false false])
        ∨ (primary_records P query = []
           ∧ fallback_records P query max_results ≠ []
           ∧ ∃ req, tr = [FirecrawlSearch query;
                          TavilySearch query max_results false false;
                          ChatCompletion req]))).
Proof.
  cbv zeta.
  destruct (environment_cases E) as [[e0 Hraise] | Hbuilt].
  { left. exists e0. unfold trace_of, result_of.
    by rewrite (search_web_client_fails E query max_results e0 Hraise). }
  right. split; [done |].
  rewrite (search_web_client_built E query max_results Hbuilt).
  generalize (services E). intros P.
  rewrite search_web_trace, search_trace_spec. cbv zeta.
  rewrite search_outcome_spec.
  destruct (primary_records P query) as [|r0 rs] eqn:Hp; cbn [PyList.truthy].
  - cbn [fst snd].
    destruct (fallback_records P query max_results) as [|f0 fs] eqn:Hf;
      cbn [PyList.truthy].
    + right; left. done.
    + right; right. split; [done |]. split; [done |]. eauto.
  - left. split; [done |]. cbn [fst snd PyList.truthy]. eauto.
Qed.

(** X11. The results are never a mix of the two providers, and the label
    says whose they are: FireCrawl with the primary adapter's records,
    Tavily with the fallback's when the primary adapter had none, and
    Unknown only when there is no record at all. *)
Theorem label_identifies_adapter (P : providers) (query : string)
    (max_results : Z) :
  let results := fst (search_outcome P query max_results) in
  let label := snd (search_outcome P query max_results) in
  (label = "FireCrawl" ∧ results = primary_records P query ∧ results ≠ [])
  ∨ (label = "Tavily" ∧ primary_records P query = []
     ∧ results = fallback_records P query max_results ∧ results ≠ [])
  ∨ (label = "Unknown" ∧ results = [] ∧ primary_records P query = []
     ∧ fallback_records P query max_results = []).
Proof.
  cbv zeta. rewrite search_outcome_spec.
  destruct (primary_records P query) as [|r0 rs]; cbn [PyList.truthy fst snd].
  - destruct (fallback_records P query max_results) as [|f0 fs];
      cbn [PyList.truthy]; [right; right | right; left]; done.
  - left. done.
Qed.

(** X12. With records at hand, a completion response without choices
    makes [search_web] raise [IndexError], and one whose first choice has
    no content makes it raise [AttributeError], in both cases after the
    call was made; otherwise only the first choice is read. *)
Theorem malformed_completion_raises (P : providers) (query : string)
    (max_results : Z) (results : list pydict) (label : string) :
  search_outcome P query max_results = (results, label) →
  results ≠ [] →
  let req := request_for query label results max_results in
  completion_calls (trace_of (search_web (ready P) query max_results)) = [req]
  ∧ (chat_completions_create P req = Returned [] →
     result_of (search_web (ready P) query max_results)
     = Raised (Exn "IndexError" "list index out of range"))
  ∧ (∀ rest, chat_completions_create P req = Returned (None :: rest) →
             result_of (search_web (ready P) query max_results)
             = Raised (Exn "AttributeError"
                           "'NoneType' object has no attribute 'strip'"))
  ∧ (∀ content rest,
       chat_completions_create P req = Returned (Some content :: rest) →
       result_of (search_web (ready P) query max_results)
       = Returned (PyStr.strip content
                   +:+ format_sources label results max_results)).
Proof.
  intros Hout Hne req. apply truthy_true_iff in Hne.
  rewrite search_web_completion_calls, search_web_result, Hout.
  cbv zeta. cbn [fst snd]. rewrite Hne. fold req.
  split; [done |]. unfold synthesized.
  split; [by intros -> |]. split; [by intros rest -> |].
  by intros content rest ->.
Qed.

Lemma malformed_completion_raises_witness :
  result_of (search_web (ready Samples.no_choices) "capital of France" 5)
  = Raised (Exn "IndexError" "list index out of range").
Proof.
  exact (proj1 (proj2 (malformed_completion_raises Samples.no_choices
                         "capital of France" 5
                         [record_of_hit Samples.paris_hit] "FireCrawl"
                         eq_refl ltac:(discriminate)))
           eq_refl).
Defined.

Section Blank.
Import PyStr PyStrFacts.

Lemma lstrip_all_space (s : string) : all_space s = true → lstrip s = "".
Proof.
  induction s as [|c s IH]; [done |]. cbn.
  intros [Hc Hs]%andb_true_iff. rewrite Hc. by apply IH.
Qed.

Lemma all_space_app (a b : string) :
  all_space (a +:+ b) = all_space a && all_space b.
Proof.
  induction a as [|c a IH]; [done |]. rewrite app_cons. cbn.
  by rewrite IH, andb_assoc.
Qed.

Lemma strip_empty_iff (s : string) : strip s = "" ↔ all_space s = true.
Proof.
  split.
  - intros He. destruct (strip_spec s) as [(pre & post & Hs & Hpre & Hpost) _].
    rewrite Hs, He, app_nil_l, all_space_app, Hpre, Hpost. done.
  - intros Ha. unfold strip. by rewrite lstrip_all_space.
Qed.

Lemma app_eq_self (a b : string) : a +:+ b = b → a = "".
Proof.
  intros H. apply (f_equal String.length) in H. rewrite length_app in H.
  destruct a; [done |]. cbn in H. lia.
Qed.

End Blank.

(** X13. A completion text that is empty or all white space is not
    treated as a failure: the return value is then the blank line and the
    citation block alone, and this happens for no other text. *)
Theorem blank_answer_gives_bare_citations (P : providers) (query : string)
    (max_results : Z) (results : list pydict) (label content : string)
    (rest : oa_response) :
  search_outcome P query max_results = (results, label) →
  results ≠ [] →
  chat_completions_create P (request_for query label results max_results)
  = Returned (Some content :: rest) →
  (PyStr.all_space content = true
   ↔ result_of (search_web (ready P) query max_results)
     = Returned (blank_line
                 +:+ citation_block label
                       (PyList.slice_to max_results results))).
Proof.
  intros Hout Hne Hreply. apply truthy_true_iff in Hne.
  rewrite search_web_result, Hout. cbv zeta. cbn [fst snd]. rewrite Hne.
  unfold synthesized. rewrite Hreply. cbn [result_of run first_choice_stripped
    ret snd]. rewrite format_sources_block, <- strip_empty_iff. split.
  - by intros ->.
  - intros [= H]. by apply app_eq_self in H.
Qed.

Lemma blank_answer_gives_bare_citations_witness :
  PyStr.all_space "   " = true
  ↔ result_of (search_web (ready Samples.blank_reply) "capital of France" 5)
    = Returned (blank_line
                +:+ citation_block "FireCrawl"
                      (PyList.slice_to 5 [record_of_hit Samples.paris_hit])).
Proof.
  exact (blank_answer_gives_bare_citations Samples.blank_reply
           "capital of France" 5 [record_of_hit Samples.paris_hit]
           "FireCrawl" "   " [] eq_refl ltac:(discriminate) eq_refl).
Defined.

Section LastChar.
Import PyStr PyStrFacts.

Lemma last_char_app_r (a b : string) (c : ascii) :
  last_char b = Some c → last_char (a +:+ b) = Some c.
Proof.
  intros Hb. induction a as [|x a IH]; [done |].
  rewrite app_cons. destruct (a +:+ b) as [|y s] eqn:Hab; [done |].
  exact IH.
Qed.

Lemma last_char_diagnostic (query : string) :
  last_char (diagnostic query) = Some "s"%char.
Proof. unfold diagnostic. do 4 apply last_char_app_r. reflexivity. Qed.

Lemma last_char_citation_line (i : nat) (r : pydict) :
  last_char (citation_line i r) = Some (ascii_of_nat 10).
Proof. unfold citation_line. do 6 apply last_char_app_r. reflexivity. Qed.

Lemma last_char_sources_header (label : string) :
  last_char (sources_header label) = Some (ascii_of_nat 10).
Proof. unfold sources_header. do 3 apply last_char_app_r. reflexivity. Qed.

Lemma last_char_concat_citations (l : list pydict) (start : nat)
    (a : string) :
  last_char a = Some (ascii_of_nat 10) →
  last_char (a +:+ concat_str (numbered_from citation_line start l))
  = Some (ascii_of_nat 10).
Proof.
  revert start a. induction l as [|r l IH]; intros start a Ha.
  - cbn. by rewrite app_nil_r.
  - cbn [numbered_from concat_str foldr]. apply last_char_app_r.
    apply IH, last_char_citation_line.
Qed.

Lemma last_char_format_sources (label : string) (results : list pydict)
    (max_results : Z) (answer : string) :
  last_char (answer +:+ format_sources label results max_results)
  = Some (ascii_of_nat 10).
Proof.
  rewrite format_sources_block. do 2 apply last_char_app_r.
  apply last_char_concat_citations, last_char_sources_header.
Qed.

End LastChar.

(** X14. In any environment, whenever [search_web] returns, the return
    value alone tells total search failure from an answer: it is a
    diagnostic message exactly when both adapters yielded nothing.  The
    diagnostic ends with the letter s, while every answer ends with the
    newline that closes the citation block, whatever the completion
    endpoint wrote. *)
Theorem diagnostic_is_recognisable (E : environment) (query : string)
    (max_results : Z) (s : string) :
  result_of (search_web E query max_results) = Returned s →
  ((∃ q, s = diagnostic q)
   ↔ primary_records (services E) query = []
     ∧ fallback_records (services E) query max_results = [])
  ∧ (primary_records (services E) query = []
     ∧ fallback_records (services E) query max_results = [] →
     s = diagnostic query ∧ PyStr.last_char s = Some "s"%char)
  ∧ (¬ (primary_records (services E) query = []
        ∧ fallback_records (services E) query max_results = []) →
     PyStr.last_char s = Some (ascii_of_nat 10)).
Proof.
  destruct (environment_cases E) as [[e0 Hraise] | Hbuilt].
  { unfold result_of.
    by rewrite (search_web_client_fails E query max_results e0 Hraise). }
  rewrite (search_web_client_built E query max_results Hbuilt).
  generalize (services E). intros P.
  rewrite search_web_result. cbv zeta. rewrite search_outcome_spec.
  assert (Hanswer : ∀ req label results,
    synthesized P req (format_sources label results max_results)
    = Returned s →
    PyStr.last_char s = Some (ascii_of_nat 10)
    ∧ ¬ ∃ q, s = diagnostic q).
  { intros req label results Hs. unfold synthesized in Hs.
    destruct (chat_completions_create P req) as [response|e]; [| done].
    destruct (result_of (first_choice_stripped response)) as [answer|e];
      [| done].
    injection Hs as <-.
    pose proof (last_char_format_sources label results max_results answer)
      as Hl.
    split; [done |]. intros [q Hq]. rewrite Hq, last_char_diagnostic in Hl.
    done. }
  destruct (primary_records P query) as [|r0 rs]; cbn [PyList.truthy fst snd].
  - destruct (fallback_records P query max_results) as [|f0 fs];
      cbn [PyList.truthy].
    + intros [= <-]. split; [split; eauto |].
      split; [by rewrite last_char_diagnostic | tauto].
    + intros Hs. apply Hanswer in Hs as [Hl Hnd].
      split; [split; [done | by intros [_ ?]] |].
      split; [by intros [_ ?] | done].
  - intros Hs. apply Hanswer in Hs as [Hl Hnd].
    split; [split; [done | by intros [? _]] |].
    split; [by intros [? _] | done].
Qed.

Lemma diagnostic_is_recognisable_witness :
  PyStr.last_char
    ("Paris." +:+ blank_line +:+ "Sources (via FireCrawl):" +:+ PyStr.nl
     +:+ "[1] Paris - https://x" +:+ PyStr.nl)
  = Some (ascii_of_nat 10).
Proof.
  refine (proj2 (proj2 (diagnostic_is_recognisable (ready Samples.paris)
                          "capital of France" 5 _ eq_refl)) _).
  intros [H _]. vm_compute in H. discriminate.
Defined.

(** X15. A response of provider A without a [data] attribute, with an
    empty hit list, or whose [data] is not a list (whatever its truth
    value) gives no record and leaves the label at Unknown, and provider B
    is then consulted. *)
Theorem unusable_response_falls_back (P : providers) (query : string)
    (max_results : Z) (resp : fc_response) :
  firecrawl_search P query = Returned resp →
  resp = None ∨ resp = Some (DataList [])
  ∨ (∃ truth, resp = Some (DataOther truth)) →
  result_of (primary_adapter P query) = Returned ([], "Unknown")
  ∧ tavily_calls (trace_of (search_web (ready P) query max_results))
    = [(query, max_results, false, false)]
  ∧ fst (search_outcome P query max_results)
    = fallback_records P query max_results.
Proof.
  intros Hresp Hshape.
  assert (Hout : primary_outcome P query = ([], "Unknown")).
  { rewrite primary_outcome_spec, Hresp.
    destruct Hshape as [-> | [-> | [truth ->]]]; done. }
  assert (Hrec : primary_records P query = []).
  { unfold primary_records. by rewrite Hout. }
  rewrite primary_adapter_returns, Hout. split; [done |].
  rewrite search_web_trace, search_trace_spec, search_outcome_spec, Hrec.
  cbv zeta. cbn [PyList.truthy fst snd]. split; [| done].
  unfold tavily_calls. rewrite omap_app.
  by destruct (PyList.truthy (fallback_records P query max_results)).
Qed.

Lemma unusable_response_falls_back_witness :
  result_of (primary_adapter Samples.tavily_sparse "q")
  = Returned ([], "Unknown")
  ∧ tavily_calls (trace_of (search_web (ready Samples.tavily_sparse) "q" 3))
    = [("q", 3, false, false)]
  ∧ fst (search_outcome Samples.tavily_sparse "q" 3)
    = fallback_records Samples.tavily_sparse "q" 3.
Proof.
  apply (unusable_response_falls_back Samples.tavily_sparse "q" 3
           (Some (DataOther true)) eq_refl).
  right; right. by exists true.
Defined.

(** X16. For every bound, negative ones included, the two blocks number
    the same records alike: the entry and the citation line at position
    [k] both carry the index [k + 1] and the fields of the [k]-th record of
    the slice, so an index cited in the answer names the same source in
    both. *)
Theorem citation_indices_match_context (label : string)
    (results : list pydict) (max_results : Z) :
  let kept := PyList.slice_to max_results results in
  format_context label results max_results
  = context_header label +:+ concat_str (numbered context_entry kept)
  ∧ format_sources label results max_results
    = blank_line +:+ sources_header label
      +:+ concat_str (numbered citation_line kept)
  ∧ length (numbered context_entry kept) = length kept
  ∧ length (numbered citation_line kept) = length kept
  ∧ (∀ k, numbered context_entry kept !! k
          = context_entry (S k) <$> kept !! k)
  ∧ (∀ k, numbered citation_line kept !! k
          = citation_line (S k) <$> kept !! k)
  ∧ (∀ k r, kept !! k = Some r → results !! k = Some r).
Proof.
  cbv zeta. rewrite format_context_block, format_sources_block.
  unfold context_block, citation_block, numbered.
  rewrite !length_numbered_from.
  repeat split; try done.
  - intros k. by rewrite numbered_from_lookup.
  - intros k. by rewrite numbered_from_lookup.
  - intros k r. unfold PyList.slice_to.
    destruct (0 <=? max_results); intros Hk;
      apply lookup_take_Some in Hk; tauto.
Qed.
